(** * Ledger and spending-limit engine of the agent payments platform

    A shallow embedding of
      - [src/app/src/db/queries.ts]   (transaction and spending-limit queries),
      - [src/money/src/db/index.ts]   (the store adapter: [query], [queryOne],
                                       [execute], [runTransaction]),
      - [src/app/src/services/limits.ts], [src/app/src/services/fiat.ts],
      - [src/money/src/services/transaction.ts] ([transfer], [transferExternal]),
      - [src/app/src/utils/solana.ts]  ([getUsdcBalance], [hasEnoughUsdc]).

    Modelling choices.
      - A table is the list of its rows in insertion order; [id] columns are
        [INTEGER PRIMARY KEY AUTOINCREMENT], no statement of the program
        deletes a row, so a fresh id is one more than the largest id present.
      - Amounts ([REAL] columns, JS [number]) are IEEE 754 binary64 numbers,
        the primitive [float] of the Standard Library: [+], [-], [*], [/] and
        the comparisons round and compare as JS and SQLite do.  NaN is not an
        amount: every caller of the engine rejects it ([isNaN] in the
        commands), and sql.js would bind it as NULL, which the [NOT NULL]
        columns refuse; statements about writes are about numbers.
        Identifiers are integers [Z].
      - The store, the wall clock and the failures of the store are one
        [World] threaded through a state-and-exception monad [M].  Every
        [execute] consumes one entry of a fault plan, so that a failing write
        can be injected at any statement.
      - The connection is the one of sql.js.  Its [Database.export], which
        [saveDb] calls after every [execute], closes the database handle and
        opens it again on the same bytes; SQLite rolls back the transaction
        that is open when a handle is closed.  The world therefore records
        the rows as they were at BEGIN while a transaction is open ([begun]).
        Foreign keys are not modelled.
      - Where a parameter of the source would clash with a column name it
        is shortened or carries a trailing underscore ([amt], [fee_]); the
        [id] column of each table has its own projection ([tx_id], [sl_id],
        [wr_id], [w_id], [u_id]).
      - The settlement network, key decoding and number formatting are
        collaborators given by a record [Externals].  An [await] resumes at a
        later instant, which the record provides as well.  Interleaving of
        other handlers during an [await] is not modelled (the engine assumes
        operations on a wallet are serialised by its caller). *)

From Stdlib Require Import List Ascii String ZArith Floats Bool Lia DecimalString.
Import ListNotations.

Set Warnings "-inexact-float".

Open Scope string_scope.
Open Scope Z_scope.
Open Scope list_scope.


(** ** Rows of the schema (db/schema.ts) *)

Inductive TxType := Transfer | Withdrawal | Deposit | Fee.
Inductive TxStatus := Pending | Confirmed | Failed.
Inductive WStatus := WPending | WProcessing | WCompleted | WFailed.
Inductive WalletType := Human | Agent.

Record User := mkUser {
  u_id : Z;
  telegram_id : string;
  telegram_username : option string;
  user_created_at : string;
  user_updated_at : string
}.

Record Wallet := mkWallet {
  w_id : Z;
  user_id : Z;
  public_key : string;
  encrypted_secret_key : string;
  wallet_type : WalletType;
  label : option string;
  is_active : Z;
  wallet_created_at : string
}.

Record Transaction := mkTransaction {
  tx_id : Z;
  from_wallet_id : Z;
  to_wallet_id : option Z;
  to_external_address : option string;
  amount : float;
  token : string;
  fee : float;
  tx_signature : option string;
  tx_type : TxType;
  status : TxStatus;
  error_message : option string;
  created_at : string;
  confirmed_at : option string
}.

Record SpendingLimit := mkSpendingLimit {
  sl_id : Z;
  wallet_id : Z;
  daily_limit : float;
  used_today : float;
  reset_date : string;
  sl_created_at : string;
  updated_at : string
}.

Record WithdrawalRequest := mkWithdrawalRequest {
  wr_id : Z;
  wr_user_id : Z;
  wr_wallet_id : Z;
  amount_usdc : float;
  amount_fiat : option float;
  fiat_currency : string;
  stripe_transfer_id : option string;
  wr_status : WStatus;
  wr_error_message : option string;
  wr_created_at : string;
  completed_at : option string
}.

(** The five tables created by [CREATE_TABLES_SQL]. *)
Record Db := mkDb {
  users : list User;
  wallets : list Wallet;
  transactions : list Transaction;
  spending_limits : list SpendingLimit;
  withdrawal_requests : list WithdrawalRequest
}.

Definition with_transactions (f : list Transaction -> list Transaction) (d : Db) : Db :=
  mkDb (users d) (wallets d) (f (transactions d)) (spending_limits d)
       (withdrawal_requests d).

Definition with_spending_limits (f : list SpendingLimit -> list SpendingLimit) (d : Db) : Db :=
  mkDb (users d) (wallets d) (transactions d) (f (spending_limits d))
       (withdrawal_requests d).

Definition with_withdrawal_requests
  (f : list WithdrawalRequest -> list WithdrawalRequest) (d : Db) : Db :=
  mkDb (users d) (wallets d) (transactions d) (spending_limits d)
       (f (withdrawal_requests d)).

Definition TxType_eqb (a b : TxType) : bool :=
  match a, b with
  | Transfer, Transfer | Withdrawal, Withdrawal
  | Deposit, Deposit | Fee, Fee => true
  | _, _ => false
  end.

(** ** The world: store, clock, fault plan *)

(** [today] is [new Date().toISOString().split('T')[0]]; [timestamp] is what
    SQLite's [CURRENT_TIMESTAMP] yields at the same instant. *)
Record Clock := mkClock { today : string; timestamp : string }.

(** What happens to one [execute] of the store adapter:
    [RunFault]: [database.run] throws, the statement has no effect;
    [SaveFault]: the statement is run and the connection exported, then
    [writeFileSync] throws. *)
Inductive Fault := NoFault | RunFault (msg : string) | SaveFault (msg : string).

(** [begun] holds the rows as they were at BEGIN while a transaction is
    open on the connection. *)
Record World := mkWorld {
  db : Db;
  clock : Clock;
  faults : list Fault;
  begun : option Db
}.

(** A thrown JS value: an [Error] with its message, or anything else. *)
Inductive Thrown := JsError (message : string) | NonError.

Inductive Outcome (A : Type) := Ok (a : A) | Throw (e : Thrown).
Arguments Ok {A} a.
Arguments Throw {A} e.

Definition M (A : Type) : Type := World -> Outcome A * World.

Definition ret {A} (a : A) : M A := fun w => (Ok a, w).

Definition bind {A B} (m : M A) (k : A -> M B) : M B :=
  fun w => match m w with
           | (Ok a, w') => k a w'
           | (Throw e, w') => (Throw e, w')
           end.

Definition throw {A} (e : Thrown) : M A := fun w => (Throw e, w).

(** [try { m } catch (error) { h error }] *)
Definition try_catch {A} (m : M A) (h : Thrown -> M A) : M A :=
  fun w => match m w with
           | (Ok a, w') => (Ok a, w')
           | (Throw e, w') => h e w'
           end.

Notation "x <- m ;; k" := (bind m (fun x => k))
  (at level 61, m at next level, right associativity).
Notation "m ;; k" := (bind m (fun _ => k))
  (at level 61, right associativity).

(** ** Store adapter (db/index.ts) *)

(** [query]: a SELECT, given as the function computing its result rows. *)
Definition query {A} (sel : Db -> list A) : M (list A) :=
  fun w => (Ok (sel (db w)), w).

(** [queryOne]: [results[0]], [undefined] when there is none. *)
Definition queryOne {A} (sel : Db -> list A) : M (option A) :=
  rows <- query sel ;; ret (hd_error rows).

Definition next_fault (w : World) : Fault * list Fault :=
  match faults w with
  | [] => (NoFault, [])
  | f :: fs => (f, fs)
  end.

(** What [db.export()] does to the connection: the handle is closed and
    opened again, which rolls back the transaction that is open, if any. *)
Definition reopened (w : World) : World :=
  match begun w with
  | Some snapshot => mkWorld snapshot (clock w) (faults w) None
  | None => w
  end.

(** [saveDb]: [db.export()], then [writeFileSync]. *)
Definition saveDb : M unit := fun w => (Ok tt, reopened w).

(** [execute]: [database.run(sql, params); saveDb();] *)
Definition execute (stmt : Clock -> Db -> Db) : M unit :=
  fun w =>
    let (f, fs) := next_fault w in
    let ran := mkWorld (stmt (clock w) (db w)) (clock w) fs (begun w) in
    match f with
    | NoFault => (Ok tt, reopened ran)
    | RunFault m => (Throw (JsError m), mkWorld (db w) (clock w) fs (begun w))
    | SaveFault m => (Throw (JsError m), reopened ran)
    end.

(** SQLite's answers to BEGIN inside a transaction, and to COMMIT and
    ROLLBACK when no transaction is open. *)
Definition nested_transaction : string :=
  "cannot start a transaction within a transaction".

Definition nothing_to_commit : string :=
  "cannot commit - no transaction is active".

Definition no_transaction : string :=
  "cannot rollback - no transaction is active".

(** [database.run('BEGIN TRANSACTION')] *)
Definition begin_transaction : M unit :=
  fun w =>
    match begun w with
    | Some _ => (Throw (JsError nested_transaction), w)
    | None => (Ok tt, mkWorld (db w) (clock w) (faults w) (Some (db w)))
    end.

(** [database.run('COMMIT')] *)
Definition commit : M unit :=
  fun w =>
    match begun w with
    | Some _ => (Ok tt, mkWorld (db w) (clock w) (faults w) None)
    | None => (Throw (JsError nothing_to_commit), w)
    end.

(** [database.run('ROLLBACK')]: the rows are again those of BEGIN. *)
Definition rollback : M unit :=
  fun w =>
    match begun w with
    | Some snapshot => (Ok tt, mkWorld snapshot (clock w) (faults w) None)
    | None => (Throw (JsError no_transaction), w)
    end.

(** [runTransaction]: BEGIN; [try { result = fn(); COMMIT; saveDb(); return
    result } catch (error) { ROLLBACK; throw error }]. *)
Definition runTransaction {A} (fn : M A) : M A :=
  begin_transaction ;;
  try_catch (result <- fn ;; commit ;; saveDb ;; ret result)
            (fun error_ => rollback ;; throw error_).

(** [new Date().toISOString().split('T')[0]] *)
Definition current_date : M string := fun w => (Ok (today (clock w)), w).

(** Resuming after an [await]: the clock has moved on. *)
Definition resume_at (c : Clock) : M unit :=
  fun w => (Ok tt, mkWorld (db w) c (faults w) (begun w)).

(** ** SQL building blocks *)

Definition next_id (ids : list Z) : Z := 1 + fold_right Z.max 0 ids.

(** [UPDATE t SET ... WHERE p] *)
Definition update_where {R} (p : R -> bool) (f : R -> R) (rows : list R) : list R :=
  map (fun r => if p r then f r else r) rows.

(** [COALESCE(x, y)] *)
Definition COALESCE {A} (x y : option A) : option A :=
  match x with Some _ => x | None => y end.

(** JS [s || null] on an optional string: [undefined] and [''] give [null]. *)
Definition str_or_null (s : option string) : option string :=
  match s with
  | Some "" => None
  | Some s' => Some s'
  | None => None
  end.

(** JS [n || null] on an optional integer: [undefined] and [0] give [null]. *)
Definition int_or_null (n : option Z) : option Z :=
  match n with
  | Some i => if i =? 0 then None else Some i
  | None => None
  end.

(** JS [x || 0] on an optional amount: [undefined], [0], [-0] and [NaN]
    give [0]. *)
Definition num_or_zero (x : option float) : float :=
  match x with
  | Some q => if is_zero q || is_nan q then 0%float else q
  | None => 0%float
  end.

(** [ORDER BY id DESC LIMIT 1]: the row of greatest id. *)
Definition newest (rows : list Transaction) : option Transaction :=
  fold_left
    (fun acc r =>
       match acc with
       | None => Some r
       | Some a => if tx_id a <? tx_id r then Some r else Some a
       end)
    rows None.

(** A property read on [undefined] throws a [TypeError]. *)
Definition type_error : Thrown :=
  JsError "Cannot read properties of undefined".

(** ** Configuration read from the environment

    [DEFAULT_DAILY_LIMIT] is [parseFloat(process.env.DEFAULT_DAILY_LIMIT || '1000')],
    [PLATFORM_FEE_PERCENT] is [parseFloat(process.env.PLATFORM_FEE_PERCENT || '1')],
    [SOLANA_NETWORK] is [process.env.SOLANA_NETWORK || 'devnet']. *)
Record Config := mkConfig {
  DEFAULT_DAILY_LIMIT : float;
  PLATFORM_FEE_PERCENT : float;
  SOLANA_NETWORK : string
}.

(** ** Transaction queries (db/queries.ts) *)

Record CreateOptions := mkCreateOptions {
  toWalletId : option Z;
  toExternalAddress : option string;
  opt_fee : option float;
  opt_txSignature : option string
}.

Definition no_create_options : CreateOptions := mkCreateOptions None None None None.

Record StatusOptions := mkStatusOptions {
  txSignature : option string;
  errorMessage : option string
}.

Definition no_status_options : StatusOptions := mkStatusOptions None None.

(** [INSERT INTO transactions (from_wallet_id, to_wallet_id,
    to_external_address, amount, fee, tx_signature, tx_type) VALUES ...]:
    [token], [status] and [created_at] take their column defaults. *)
Definition new_transaction (fromWalletId : Z) (amt : float) (txType : TxType)
  (options : CreateOptions) (c : Clock) (txs : list Transaction) : Transaction :=
  mkTransaction
    (next_id (map tx_id txs))
    fromWalletId
    (int_or_null (toWalletId options))
    (str_or_null (toExternalAddress options))
    amt
    "USDC"
    (num_or_zero (opt_fee options))
    (str_or_null (opt_txSignature options))
    txType
    Pending
    None
    (timestamp c)
    None.

Definition insert_transaction (fromWalletId : Z) (amt : float) (txType : TxType)
  (options : CreateOptions) (c : Clock) : Db -> Db :=
  with_transactions (fun txs =>
    txs ++ [new_transaction fromWalletId amt txType options c txs]).

(** [SELECT * FROM transactions WHERE from_wallet_id = ? AND amount = ?
    AND tx_type = ?] *)
Definition select_created (fromWalletId : Z) (amt : float) (txType : TxType)
  (d : Db) : list Transaction :=
  filter (fun r => (from_wallet_id r =? fromWalletId)
                   && (amount r =? amt)%float
                   && TxType_eqb (tx_type r) txType)
         (transactions d).

Definition createTransaction (fromWalletId : Z) (amt : float) (txType : TxType)
  (options : CreateOptions) : M Transaction :=
  execute (insert_transaction fromWalletId amt txType options) ;;
  tx <- query (select_created fromWalletId amt txType) ;;
  match newest tx with
  | Some tx => ret tx
  | None => throw type_error   (* [tx.id] in the debug log *)
  end.

(** The SET clause of [updateTransactionStatus]; [confirmed_at] is stamped
    only in the [confirmed] branch. *)
Definition set_status (st : TxStatus) (options : StatusOptions) (c : Clock)
  (r : Transaction) : Transaction :=
  mkTransaction
    (tx_id r) (from_wallet_id r) (to_wallet_id r) (to_external_address r)
    (amount r) (token r) (fee r)
    (COALESCE (str_or_null (txSignature options)) (tx_signature r))
    (tx_type r)
    st
    (str_or_null (errorMessage options))
    (created_at r)
    (match st with
     | Confirmed => Some (timestamp c)
     | _ => confirmed_at r
     end).

Definition select_transaction (id : Z) (d : Db) : list Transaction :=
  filter (fun r => tx_id r =? id) (transactions d).

Definition updateTransactionStatus (id : Z) (st : TxStatus)
  (options : StatusOptions) : M (option Transaction) :=
  execute (fun c => with_transactions
                      (update_where (fun r => tx_id r =? id) (set_status st options c))) ;;
  queryOne (select_transaction id).

(** ** Spending-limit queries (db/queries.ts) *)

Definition select_limit (walletId : Z) (d : Db) : list SpendingLimit :=
  filter (fun r => wallet_id r =? walletId) (spending_limits d).

(** [SET used_today = 0, reset_date = ?, updated_at = CURRENT_TIMESTAMP] *)
Definition reset_row (today_ : string) (c : Clock) (r : SpendingLimit)
  : SpendingLimit :=
  mkSpendingLimit (sl_id r) (wallet_id r) (daily_limit r) 0%float today_
                  (sl_created_at r) (timestamp c).

(** [INSERT INTO spending_limits (wallet_id, daily_limit, reset_date)]:
    [used_today] defaults to 0, the timestamps to [CURRENT_TIMESTAMP]. *)
Definition fresh_row (walletId : Z) (defaultLimit : float) (today_ : string)
  (c : Clock) (rows : list SpendingLimit) : SpendingLimit :=
  mkSpendingLimit (next_id (map sl_id rows)) walletId defaultLimit
                  0%float today_ (timestamp c) (timestamp c).

Definition getOrCreateSpendingLimit (cfg : Config) (walletId : Z)
  : M (option SpendingLimit) :=
  existing <- queryOne (select_limit walletId) ;;
  match existing with
  | Some existing =>
      today_ <- current_date ;;
      if negb (String.eqb (reset_date existing) today_) then
        execute (fun c => with_spending_limits
                            (update_where (fun r => wallet_id r =? walletId)
                                          (reset_row today_ c))) ;;
        queryOne (select_limit walletId)
      else ret (Some existing)
  | None =>
      let defaultLimit := DEFAULT_DAILY_LIMIT cfg in
      today_ <- current_date ;;
      execute (fun c => with_spending_limits
                          (fun rows =>
                             rows ++ [fresh_row walletId defaultLimit today_ c rows])) ;;
      queryOne (select_limit walletId)
  end.

(** [SET daily_limit = ?, updated_at = CURRENT_TIMESTAMP] *)
Definition set_limit_row (newLimit : float) (c : Clock) (r : SpendingLimit)
  : SpendingLimit :=
  mkSpendingLimit (sl_id r) (wallet_id r) newLimit (used_today r)
                  (reset_date r) (sl_created_at r) (timestamp c).

Definition updateSpendingLimit (cfg : Config) (walletId : Z) (newLimit : float)
  : M (option SpendingLimit) :=
  existing <- queryOne (select_limit walletId) ;;
  match existing with
  | None => getOrCreateSpendingLimit cfg walletId ;; ret tt
  | Some _ => ret tt
  end ;;
  execute (fun c => with_spending_limits
                      (update_where (fun r => wallet_id r =? walletId)
                                    (set_limit_row newLimit c))) ;;
  queryOne (select_limit walletId).

(** [SET used_today = used_today + ?, updated_at = CURRENT_TIMESTAMP] *)
Definition add_spending (amt : float) (c : Clock) (r : SpendingLimit)
  : SpendingLimit :=
  mkSpendingLimit (sl_id r) (wallet_id r) (daily_limit r)
                  (used_today r + amt)%float
                  (reset_date r) (sl_created_at r) (timestamp c).

Definition recordSpending (cfg : Config) (walletId : Z) (amt : float)
  : M (option SpendingLimit) :=
  getOrCreateSpendingLimit cfg walletId ;;
  execute (fun c => with_spending_limits
                      (update_where (fun r => wallet_id r =? walletId)
                                    (add_spending amt c))) ;;
  queryOne (select_limit walletId).

Record Allowance := mkAllowance { allowed : bool; remaining : float }.

Definition checkSpendingAllowed (cfg : Config) (walletId : Z) (amt : float)
  : M Allowance :=
  limit <- getOrCreateSpendingLimit cfg walletId ;;
  match limit with
  | None => throw type_error   (* [limit.daily_limit] *)
  | Some limit =>
      let remaining := (daily_limit limit - used_today limit)%float in
      ret (mkAllowance (amt <=? remaining)%float remaining)
  end.

(** ** Combined operation (db/queries.ts) *)

Definition executeTransfer (cfg : Config) (fromWalletId toWalletId_ : Z)
  (amt : float) (signature_ : string) (fee_ : float) : M (option Transaction) :=
  runTransaction
    (recordSpending cfg fromWalletId (amt + fee_)%float ;;
     tx <- createTransaction fromWalletId amt Transfer
             (mkCreateOptions (Some toWalletId_) None (Some fee_) (Some signature_)) ;;
     updateTransactionStatus (tx_id tx) Confirmed
       (mkStatusOptions (Some signature_) None)).

(** ** Limits service (services/limits.ts) *)

Record LimitStatus := mkLimitStatus {
  dailyLimit : float;
  usedToday : float;
  remainingToday : float;
  resetDate : string
}.

Definition getLimitStatus (cfg : Config) (walletId : Z) : M LimitStatus :=
  limit <- getOrCreateSpendingLimit cfg walletId ;;
  match limit with
  | None => throw type_error
  | Some limit =>
      ret (mkLimitStatus (daily_limit limit) (used_today limit)
                         (daily_limit limit - used_today limit)%float
                         (reset_date limit))
  end.

(** ** Withdrawal sub-ledger (services/fiat.ts) *)

(** [SET status = 'completed', completed_at = CURRENT_TIMESTAMP] *)
Definition complete_row (c : Clock) (r : WithdrawalRequest) : WithdrawalRequest :=
  mkWithdrawalRequest (wr_id r) (wr_user_id r) (wr_wallet_id r) (amount_usdc r)
    (amount_fiat r) (fiat_currency r) (stripe_transfer_id r)
    WCompleted (wr_error_message r) (wr_created_at r) (Some (timestamp c)).

Definition select_withdrawal (requestId : Z) (d : Db) : list WithdrawalRequest :=
  filter (fun r => wr_id r =? requestId) (withdrawal_requests d).

Definition completeWithdrawal (requestId : Z) : M (option WithdrawalRequest) :=
  execute (fun c => with_withdrawal_requests
                      (update_where (fun r => wr_id r =? requestId) (complete_row c))) ;;
  queryOne (select_withdrawal requestId).

(** ** Transfer orchestrator (services/transaction.ts) *)

(** The collaborators of one call.  [newPublicKey] is [new PublicKey(s)],
    which throws on a malformed address; [keypairFromBase58] is what
    [getWalletKeypair] calls on the wallet's stored secret; [hasEnoughUsdc]
    and [transferUsdc] are the awaited network calls, each with the instant
    at which the caller resumes. *)
Record Externals := mkExternals {
  toFixed2 : float -> string;
  newPublicKey : string -> Outcome string;
  keypairFromBase58 : string -> Outcome string;
  hasEnoughUsdc : string -> float -> Outcome bool;
  balance_resume : Clock;
  transferUsdc : string -> string -> float -> Outcome string;
  settle_resume : Clock
}.

Definition call {A} (o : Outcome A) : M A := fun w => (o, w).

Definition await {A} (o : Outcome A) (resume : Clock) : M A :=
  resume_at resume ;; call o.

Definition getExplorerUrl (signature_ network : string) : string :=
  ("https://explorer.solana.com/tx/" ++ signature_ ++ "?cluster=" ++ network)%string.

Record TransferResult := mkTransferResult {
  success : bool;
  transaction : option Transaction;
  signature : option string;
  explorerUrl : option string;
  error : option string
}.

Definition declined (msg : string) : TransferResult :=
  mkTransferResult false None None None (Some msg).

(** [error instanceof Error ? error.message : 'Unknown error'] *)
Definition message_of (e : Thrown) : string :=
  match e with
  | JsError m => m
  | NonError => "Unknown error"
  end.

Definition limit_exceeded (ext : Externals) (chk : Allowance) : string :=
  ("Daily spending limit exceeded. Remaining: $" ++ toFixed2 ext (remaining chk))%string.

Definition transfer (cfg : Config) (ext : Externals)
  (fromWallet toWallet : Wallet) (amt : float) : M TransferResult :=
  chk <- checkSpendingAllowed cfg (w_id fromWallet) amt ;;
  if negb (allowed chk) then ret (declined (limit_exceeded ext chk))
  else
    fromPublicKey <- call (newPublicKey ext (public_key fromWallet)) ;;
    hasBalance <- await (hasEnoughUsdc ext fromPublicKey amt) (balance_resume ext) ;;
    if negb hasBalance then ret (declined "Insufficient USDC balance")
    else
      let feePercent := PLATFORM_FEE_PERCENT cfg in
      let fee_ := (amt * (feePercent / 100))%float in
      let netAmount := (amt - fee_)%float in
      pendingTx <- createTransaction (w_id fromWallet) amt Transfer
                     (mkCreateOptions (Some (w_id toWallet)) None (Some fee_) None) ;;
      try_catch
        (fromKeypair <- call (keypairFromBase58 ext (encrypted_secret_key fromWallet)) ;;
         toPublicKey <- call (newPublicKey ext (public_key toWallet)) ;;
         signature_ <- await (transferUsdc ext fromKeypair toPublicKey netAmount)
                             (settle_resume ext) ;;
         confirmedTx <- executeTransfer cfg (w_id fromWallet) (w_id toWallet)
                          amt signature_ fee_ ;;
         let explorerUrl_ := getExplorerUrl signature_ (SOLANA_NETWORK cfg) in
         ret (mkTransferResult true confirmedTx (Some signature_)
                               (Some explorerUrl_) None))
        (fun error_ =>
           let errorMessage_ := message_of error_ in
           updateTransactionStatus (tx_id pendingTx) Failed
             (mkStatusOptions None (Some errorMessage_)) ;;
           ret (declined errorMessage_)).

Definition transferExternal (cfg : Config) (ext : Externals)
  (fromWallet : Wallet) (toAddress : string) (amt : float) : M TransferResult :=
  match newPublicKey ext toAddress with
  | Throw _ => ret (declined "Invalid Solana address")
  | Ok toPublicKey =>
      chk <- checkSpendingAllowed cfg (w_id fromWallet) amt ;;
      if negb (allowed chk) then ret (declined (limit_exceeded ext chk))
      else
        fromPublicKey <- call (newPublicKey ext (public_key fromWallet)) ;;
        hasBalance <- await (hasEnoughUsdc ext fromPublicKey amt) (balance_resume ext) ;;
        if negb hasBalance then ret (declined "Insufficient USDC balance")
        else
          pendingTx <- createTransaction (w_id fromWallet) amt Transfer
                         (mkCreateOptions None (Some toAddress) None None) ;;
          try_catch
            (fromKeypair <- call (keypairFromBase58 ext (encrypted_secret_key fromWallet)) ;;
             signature_ <- await (transferUsdc ext fromKeypair toPublicKey amt)
                                 (settle_resume ext) ;;
             recordSpending cfg (w_id fromWallet) amt ;;
             confirmedTx <- updateTransactionStatus (tx_id pendingTx) Confirmed
                              (mkStatusOptions (Some signature_) None) ;;
             let explorerUrl_ := getExplorerUrl signature_ (SOLANA_NETWORK cfg) in
             ret (mkTransferResult true confirmedTx (Some signature_)
                                   (Some explorerUrl_) None))
            (fun error_ =>
               let errorMessage_ := message_of error_ in
               updateTransactionStatus (tx_id pendingTx) Failed
                 (mkStatusOptions None (Some errorMessage_)) ;;
               ret (declined errorMessage_))
  end.

(** ** User queries (db/queries.ts) *)

Definition with_users (f : list User -> list User) (d : Db) : Db :=
  mkDb (f (users d)) (wallets d) (transactions d) (spending_limits d)
       (withdrawal_requests d).

(** [SELECT * FROM users WHERE telegram_id = ?] *)
Definition select_user (telegramId : string) (d : Db) : list User :=
  filter (fun u => (telegram_id u =? telegramId)%string) (users d).

(** [SELECT * FROM users WHERE id = ?] *)
Definition select_user_by_id (id : Z) (d : Db) : list User :=
  filter (fun u => u_id u =? id) (users d).

(** [SET telegram_username = ?, updated_at = CURRENT_TIMESTAMP] *)
Definition set_username (username : option string) (c : Clock) (u : User) : User :=
  mkUser (u_id u) (telegram_id u) (str_or_null username)
         (user_created_at u) (timestamp c).

(** [INSERT INTO users (telegram_id, telegram_username)]: both timestamps
    default to [CURRENT_TIMESTAMP]. *)
Definition new_user (telegramId : string) (username : option string)
  (c : Clock) (rows : list User) : User :=
  mkUser (next_id (map u_id rows)) telegramId (str_or_null username)
         (timestamp c) (timestamp c).

Definition createUser (telegramId : string) (username : option string)
  : M (option User) :=
  existing <- queryOne (select_user telegramId) ;;
  match existing with
  | Some _ =>
      execute (fun c => with_users
                          (update_where
                             (fun u => (telegram_id u =? telegramId)%string)
                             (set_username username c))) ;;
      queryOne (select_user telegramId)
  | None =>
      execute (fun c => with_users
                          (fun rows => rows ++ [new_user telegramId username c rows])) ;;
      user <- queryOne (select_user telegramId) ;;
      match user with
      | Some user => ret (Some user)
      | None => throw type_error   (* [user.id] in the debug log *)
      end
  end.

Definition getUserByTelegramId (telegramId : string) : M (option User) :=
  queryOne (select_user telegramId).

Definition getUserById (id : Z) : M (option User) :=
  queryOne (select_user_by_id id).

(** ** Limits service, continued (services/limits.ts) *)

Definition setLimit (cfg : Config) (walletId : Z) (newLimit : float)
  : M LimitStatus :=
  if (newLimit <? 0)%float then
    throw (JsError "Spending limit cannot be negative")
  else
    limit <- updateSpendingLimit cfg walletId newLimit ;;
    match limit with
    | None => throw type_error
    | Some limit =>
        ret (mkLimitStatus (daily_limit limit) (used_today limit)
                           (daily_limit limit - used_today limit)%float
                           (reset_date limit))
    end.

Definition canSpend (cfg : Config) (walletId : Z) (amt : float) : M Allowance :=
  checkSpendingAllowed cfg walletId amt.

(** ** Withdrawal sub-ledger, continued (services/fiat.ts) *)

Definition USDC_TO_USD_RATE : float := 1.0.

Definition WITHDRAWAL_FEE_PERCENT : float := 1.5.

(** What [initiateWithdrawal] takes from its host besides the store:
    [dateNow] is [Date.now()] printed in a template string, [fixed2] is
    [Number.prototype.toFixed(2)], [feePercentText] is
    [WITHDRAWAL_FEE_PERCENT] printed in a template string, [arrival] is the
    [toLocaleDateString] of the day three days ahead. *)
Record FiatHost := mkFiatHost {
  dateNow : string;
  fixed2 : float -> string;
  feePercentText : string;
  arrival : string
}.

Record WithdrawalResult := mkWithdrawalResult {
  w_success : bool;
  request : option WithdrawalRequest;
  w_message : string;
  estimatedArrival : option string
}.

(** [INSERT INTO withdrawal_requests (user_id, wallet_id, amount_usdc,
    amount_fiat, status) VALUES (?, ?, ?, ?, 'pending')] *)
Definition new_request (userId walletId : Z) (amountUsdc amountFiat : float)
  (c : Clock) (rows : list WithdrawalRequest) : WithdrawalRequest :=
  mkWithdrawalRequest (next_id (map wr_id rows)) userId walletId amountUsdc
                      (Some amountFiat) "USD" None WPending None
                      (timestamp c) None.

Definition WStatus_eqb (a b : WStatus) : bool :=
  match a, b with
  | WPending, WPending | WProcessing, WProcessing
  | WCompleted, WCompleted | WFailed, WFailed => true
  | _, _ => false
  end.

(** [SELECT * FROM withdrawal_requests WHERE user_id = ? AND wallet_id = ?
    AND amount_usdc = ? AND status = 'pending'] *)
Definition select_pending_request (userId walletId : Z) (amountUsdc : float)
  (d : Db) : list WithdrawalRequest :=
  filter (fun r => (wr_user_id r =? userId)
                   && (wr_wallet_id r =? walletId)
                   && (amount_usdc r =? amountUsdc)%float
                   && WStatus_eqb (wr_status r) WPending)
         (withdrawal_requests d).

(** [ORDER BY id DESC LIMIT 1] on withdrawal requests. *)
Definition newest_request (rows : list WithdrawalRequest)
  : option WithdrawalRequest :=
  fold_left
    (fun acc r =>
       match acc with
       | None => Some r
       | Some a => if wr_id a <? wr_id r then Some r else Some a
       end)
    rows None.

(** [SET status = 'processing', stripe_transfer_id = ?] *)
Definition process_row (mockStripeId : string) (r : WithdrawalRequest)
  : WithdrawalRequest :=
  mkWithdrawalRequest (wr_id r) (wr_user_id r) (wr_wallet_id r) (amount_usdc r)
    (amount_fiat r) (fiat_currency r) (Some mockStripeId)
    WProcessing (wr_error_message r) (wr_created_at r) (completed_at r).

Definition newline : string := String (Ascii.ascii_of_nat 10) EmptyString.

(** [lines.join('\n')] *)
Fixpoint join_lines (lines : list string) : string :=
  match lines with
  | [] => ""
  | [l] => l
  | l :: rest => (l ++ newline ++ join_lines rest)%string
  end.

Definition withdrawal_message (host : FiatHost) (amountUsdc fee_ amountFiat : float)
  : string :=
  join_lines
    [ "✅ Withdrawal initiated!";
      "";
      ("💵 Amount: $" ++ fixed2 host amountUsdc ++ " USDC")%string;
      ("📉 Fee (" ++ feePercentText host ++ "%): $" ++ fixed2 host fee_)%string;
      ("💰 You'll receive: $" ++ fixed2 host amountFiat ++ " USD")%string;
      "";
      "⚠️ DEVNET MODE: No real money will be transferred.";
      "In production, funds would arrive via ACH." ].

Definition initiateWithdrawal (host : FiatHost) (userId walletId : Z)
  (amountUsdc : float) : M WithdrawalResult :=
  if (amountUsdc <? 10)%float then
    ret (mkWithdrawalResult false None "Minimum withdrawal is $10 USDC" None)
  else
    let fee_ := (amountUsdc * (WITHDRAWAL_FEE_PERCENT / 100))%float in
    let amountFiat := ((amountUsdc - fee_) * USDC_TO_USD_RATE)%float in
    execute (fun c => with_withdrawal_requests
                        (fun rows =>
                           rows ++ [new_request userId walletId amountUsdc
                                                amountFiat c rows])) ;;
    pending <- query (select_pending_request userId walletId amountUsdc) ;;
    match newest_request pending with
    | None =>
        ret (mkWithdrawalResult false None
               "Failed to create withdrawal request" None)
    | Some pendingRequest =>
        let requestId := wr_id pendingRequest in
        let mockStripeId := ("tr_mock_" ++ dateNow host)%string in
        execute (fun _ => with_withdrawal_requests
                            (update_where (fun r => wr_id r =? requestId)
                                          (process_row mockStripeId))) ;;
        request_ <- queryOne (select_withdrawal requestId) ;;
        ret (mkWithdrawalResult true request_
               (withdrawal_message host amountUsdc fee_ amountFiat)
               (Some (arrival host)))
    end.

Definition getWithdrawalStatus (requestId : Z) : M (option WithdrawalRequest) :=
  queryOne (select_withdrawal requestId).

(** ** Balance helpers (utils/solana.ts) *)






(** * Vocabulary of the statements *)

(** A world in which no unit of work is open, and one whose fault plan is
    empty as well: every write goes through. *)
Abbreviation idle d c fs := (mkWorld d c fs None).
Abbreviation quiet d c := (mkWorld d c [] None).

(** The WHERE clauses keyed on a wallet and on a transaction id. *)
Definition is_wallet (walletId : Z) (r : SpendingLimit) : bool :=
  wallet_id r =? walletId.

Definition has_id (id : Z) (r : Transaction) : bool := tx_id r =? id.

(** ** Sequences of calls *)




(** ** What a read of the spending limits sees and leaves *)

(** The cap and the amount used that a read on day [day] sees for the
    wallet: a stale counter reads as 0, a missing row as the default cap
    with nothing used. *)
Definition view (cfg : Config) (day : string) (walletId : Z) (d : Db)
  : float * float :=
  match hd_error (select_limit walletId d) with
  | Some r =>
      (daily_limit r, if (reset_date r =? day)%string then used_today r else 0%float)
  | None => (DEFAULT_DAILY_LIMIT cfg, 0%float)
  end.


(** [d'] and [row] are the store and the row that
    [getOrCreateSpendingLimit] leaves and returns for [walletId] at instant
    [c], started on [d]. *)
Definition rolled_over (cfg : Config) (walletId : Z) (c : Clock)
  (d : Db) (row : SpendingLimit) (d' : Db) : Prop :=
  users d' = users d
  /\ wallets d' = wallets d
  /\ transactions d' = transactions d
  /\ withdrawal_requests d' = withdrawal_requests d
  /\ (forall other, other <> walletId -> select_limit other d' = select_limit other d)
  /\ hd_error (select_limit walletId d') = Some row
  /\ reset_date row = today c
  /\ match hd_error (select_limit walletId d) with
     | Some r =>
         daily_limit row = daily_limit r
         /\ if (reset_date r =? today c)%string
            then row = r /\ d' = d
            else row = reset_row (today c) c r
     | None =>
         row = fresh_row walletId (DEFAULT_DAILY_LIMIT cfg) (today c) c
                         (spending_limits d)
     end.

(** ** Rows written by a transfer *)

(** The status stored for a transaction and for a withdrawal request. *)
Definition stored_status (id : Z) (d : Db) : option TxStatus :=
  option_map status (hd_error (select_transaction id d)).

Definition stored_withdrawal_status (requestId : Z) (d : Db) : option WStatus :=
  option_map wr_status (hd_error (select_withdrawal requestId d)).

(** [amount * (feePercent / 100)], the fee [transfer] computes. *)
Definition platform_fee (cfg : Config) (amt : float) : float :=
  (amt * (PLATFORM_FEE_PERCENT cfg / 100))%float.

(** The options of the pending row of an internal and of an external
    transfer. *)
Definition internal_options (toWallet : Wallet) (fee_ : float) : CreateOptions :=
  mkCreateOptions (Some (w_id toWallet)) None (Some fee_) None.

Definition external_options (toAddress : string) : CreateOptions :=
  mkCreateOptions None (Some toAddress) None None.

(** The options [executeTransfer] passes to [createTransaction]. *)
Definition settled_options (toWalletId_ : Z) (fee_ : float) (signature_ : string)
  : CreateOptions :=
  mkCreateOptions (Some toWalletId_) None (Some fee_) (Some signature_).

(** The row [executeTransfer] inserts and confirms. *)
Definition settled_row (fromWalletId toWalletId_ : Z) (amt : float)
  (signature_ : string) (fee_ : float) (c : Clock) (txs : list Transaction)
  : Transaction :=
  set_status Confirmed (mkStatusOptions (Some signature_) None) c
    (new_transaction fromWalletId amt Transfer
       (settled_options toWalletId_ fee_ signature_) c txs).

(** The spending limits [executeTransfer] leaves behind.  The first write
    inside its unit of work ends the transaction and is lost, the later ones
    are committed one by one.  With a row of today the lost write is the
    recording of the spend; with a stale row it is the rollover, and the
    spend is then added to the stale counter; without a row it is the
    insertion, and the spend is recorded nowhere. *)
Definition limits_after_executeTransfer (walletId : Z) (spend : float)
  (c : Clock) (d : Db) : list SpendingLimit :=
  match hd_error (select_limit walletId d) with
  | Some r =>
      if (reset_date r =? today c)%string then spending_limits d
      else update_where (is_wallet walletId) (add_spending spend c) (spending_limits d)
  | None => spending_limits d
  end.


(** ** Invariants of the store *)

(** [I] holds of the rows, and of the rows a rollback would restore. *)
Definition holds_in (I : Db -> Prop) (w : World) : Prop :=
  I (db w) /\ forall snapshot, begun w = Some snapshot -> I snapshot.

(** [m] keeps the property [I] of the store, whatever the fault plan. *)
Definition preserves (I : Db -> Prop) {A} (m : M A) : Prop :=
  forall w, holds_in I w -> holds_in I (snd (m w)).

(** The keys the schema declares unique are so: one spending-limit row per
    wallet, one row per transaction id, per withdrawal-request id and per
    telegram id. *)
Definition keyed (d : Db) : Prop :=
  NoDup (map wallet_id (spending_limits d))
  /\ NoDup (map tx_id (transactions d))
  /\ NoDup (map wr_id (withdrawal_requests d))
  /\ NoDup (map telegram_id (users d)).

(** The answer of a transfer that was declined for its spending limit. *)
Definition over_limit (ext : Externals) (rem : float) : TransferResult :=
  mkTransferResult false None None None
    (Some ("Daily spending limit exceeded. Remaining: $" ++ toFixed2 ext rem)%string).

(** The amount used that the limits service reported before a transfer
    counts on the day the settlement resumes only if that is still the day
    of the spending check. *)
Definition carried_over (ext : Externals) (c : Clock) (used : float) : float :=
  if (today c =? today (settle_resume ext))%string then used else 0%float.

(** * Scenario data *)

(** ** Collaborators of the scenarios

    The key classes of @solana/web3.js and the number formatting of JS are
    not part of the repository; the scenarios use the following stand-ins. *)

Definition base58_alphabet : string :=
  "123456789ABCDEFGHJKLMNPQRSTUVWXYZabcdefghijkmnopqrstuvwxyz".

Fixpoint index_in (a : Ascii.ascii) (s : string) (i : N) : option N :=
  match s with
  | EmptyString => None
  | String b rest => if Ascii.eqb a b then Some i else index_in a rest (N.succ i)
  end.

(** The number a base58 string denotes, [None] on a character outside the
    alphabet. *)
Fixpoint base58_number (s : string) (acc : N) : option N :=
  match s with
  | EmptyString => Some acc
  | String a rest =>
      match index_in a base58_alphabet 0 with
      | Some digit => base58_number rest (acc * 58 + digit)
      | None => None
      end
  end.

Fixpoint leading_ones (s : string) : N :=
  match s with
  | String "1"%char rest => N.succ (leading_ones rest)
  | _ => 0%N
  end.

(** The length of [bs58.decode(s)]: one zero byte per leading ['1'], then
    the bytes of the number. *)
Definition decoded_length (s : string) : option N :=
  match base58_number s 0 with
  | Some n => Some (leading_ones s + (N.size n + 7) / 8)%N
  | None => None
  end.

(** [new PublicKey(s)]: the decoded address must have 32 bytes.  The key
    object is represented by its base58 text. *)
Definition PublicKey (s : string) : Outcome string :=
  match decoded_length s with
  | Some 32%N => Ok s
  | Some _ => Throw (JsError "Invalid public key input")
  | None => Throw (JsError "Non-base58 character")
  end.

(** [Keypair.fromSecretKey(bs58.decode(s))]: the decoded secret must have 64
    bytes (that its second half is the public key of its first half is not
    checked here). *)
Definition Keypair (s : string) : Outcome string :=
  match decoded_length s with
  | Some 64%N => Ok s
  | Some _ => Throw (JsError "bad secret key size")
  | None => Throw (JsError "Non-base58 character")
  end.

(** [n], a number of hundredths, printed with two decimals. *)
Definition two_decimals (n : Z) : string :=
  let units := NilZero.string_of_uint (N.to_uint (Z.to_N (n / 100))) in
  let cents := NilZero.string_of_uint (N.to_uint (Z.to_N (n mod 100))) in
  let pad := if n mod 100 <? 10 then "0" else "" in
  (units ++ "." ++ pad ++ cents)%string.

(** The integer nearest to 100 times [m * 2^e], the larger one on a tie. *)
Definition hundredths (m : positive) (e : Z) : Z :=
  match e with
  | Zneg k => (2 * (Zpos m * 100) + 2 ^ Zpos k) / (2 * 2 ^ Zpos k)
  | _ => Zpos m * 100 * 2 ^ e
  end.

(** [Number.prototype.toFixed(2)], for numbers below 1e21 in magnitude. *)
Definition toFixed_2 (x : float) : string :=
  match Prim2SF x with
  | S754_nan => "NaN"
  | S754_infinity s => if s then "-Infinity" else "Infinity"
  | S754_zero _ => "0.00"
  | S754_finite s m e =>
      ((if s then "-" else "") ++ two_decimals (hundredths m e))%string
  end.

(** ** Stores, wallets, instants *)

(** The environment's defaults: cap 1000, fee 1 percent, devnet. *)
Definition demo_cfg : Config := mkConfig 1000 1 "devnet".

(** Three instants of one day. *)
Definition this_morning : Clock := mkClock "2025-03-14" "2025-03-14 09:00:00".
Definition this_noon : Clock := mkClock "2025-03-14" "2025-03-14 12:00:00".
Definition this_evening : Clock := mkClock "2025-03-14" "2025-03-14 19:45:00".

(** Wallet 7 has a cap of 100 and has spent 80; the row carries the date
    given. *)
Definition limit_row (date stamp : string) : SpendingLimit :=
  mkSpendingLimit 1 7 100 80 date "2025-03-01 08:00:00" stamp.

Definition store_with (rows : list SpendingLimit) : Db := mkDb [] [] [] rows [].

(** The row is of today in [current_store], of the day before in
    [stale_store]. *)
Definition current_store : Db :=
  store_with [limit_row "2025-03-14" "2025-03-14 08:00:00"].

Definition stale_store : Db :=
  store_with [limit_row "2025-03-13" "2025-03-13 18:30:00"].


(** A ledger with one confirmed transfer (id 1, reference "sigA"), one
    failed transfer (id 2) and one failed withdrawal request (id 1). *)
Definition confirmed_tx : Transaction :=
  mkTransaction 1 7 (Some 9) None 50 "USDC" 0.5 (Some "sigA") Transfer
                Confirmed None "2025-03-14 08:00:00" (Some "2025-03-14 08:00:05").

Definition failed_tx : Transaction :=
  mkTransaction 2 7 (Some 9) None 30 "USDC" 0.3 None Transfer
                Failed (Some "blockhash expired") "2025-03-14 08:10:00" None.

Definition failed_withdrawal : WithdrawalRequest :=
  mkWithdrawalRequest 1 3 7 40 (Some 39.4%float) "USD" (Some "tr_mock_1")
                      WFailed (Some "payout rejected") "2025-03-14 08:20:00" None.

Definition ledger_store : Db :=
  mkDb [] [] [confirmed_tx; failed_tx] [] [failed_withdrawal].

(** One registered user. *)
Definition users_store : Db :=
  mkDb [mkUser 3 "555000111" (Some "alice_sol") "2025-03-01 08:00:00"
               "2025-03-01 08:00:00"] [] [] [] [].

(** Two wallets of the platform, each with the key pair [createNewWallet]
    stores for it, and the address of a wallet outside the platform. *)
Definition alice : Wallet :=
  mkWallet 7 3 "E9Q3meJai38VK3pA5EdP5vmhMX3qzHyFdUdKxFn9y1Ee"
    "4jNDY4tSDSpEbFty2Bvq1puCyuZ98N5PM1w6FWS1af3DFiCpzL6nsG35vNpErd4Wdso93H3munjLSbQVjrDCSVAe"
    Human None 1 "2025-03-01 08:00:00".

Definition bob : Wallet :=
  mkWallet 9 4 "EJRJ76qj2pHxxeQF1AoseZhtVQazhvB6cmBK8aC3AJU6"
    "3UTV7mzriDpwFHXAPw57SwcR7rAJQzydkHkh9W4TJuf2GVHWjzftY2wjFx4vVGx3rwWM896Mukxb22jLH4vQKPBt"
    Agent (Some "bot") 1 "2025-03-02 08:00:00".

Definition carol_address : string :=
  "8boEbDq2dRxA88baRgjmYsiVyUWsHWW5RU4saw22zdxt".

(** The signature of a settled transfer. *)
Definition sig1 : string :=
  "4Z87Szw9evtraEBtJBTSv1FBmn39M8SBrPJsBuNxWz2cmHU3x69kzrrb4nnXHSQZKrTAfLzTm9c5FtPSie82mK8L".

(** Collaborators: keys are decoded as above, the balance is as given, the
    settlement call ends as given.  The balance query resumes at noon, the
    settlement call in the evening. *)
Definition demo_ext_with (enough : Outcome bool) (settlement : Outcome string)
  : Externals :=
  mkExternals toFixed_2 PublicKey Keypair
              (fun _ _ => enough) this_noon
              (fun _ _ _ => settlement) this_evening.

Definition demo_ext (settlement : Outcome string) : Externals :=
  demo_ext_with (Ok true) settlement.

(** A host of the withdrawal service for the scenarios. *)
Definition demo_host : FiatHost :=
  mkFiatHost "1741953600000" toFixed_2 "1.5" "Monday, Mar 17".

(** * Properties *)

(** ** The store adapter without injected faults *)

Lemma execute_quiet stmt d c :
  execute stmt (quiet d c) = (Ok tt, quiet (stmt c d) c).
Proof. reflexivity. Qed.

Lemma queryOne_run {A} (sel : Db -> list A) w :
  queryOne sel w = (Ok (hd_error (sel (db w))), w).
Proof. reflexivity. Qed.

Lemma bind_run {A B} (m : M A) (k : A -> M B) w {a w'} :
  m w = (Ok a, w') -> bind m k w = k a w'.
Proof. intros H. unfold bind. now rewrite H. Qed.

Lemma bind_throw {A B} (m : M A) (k : A -> M B) w {e w'} :
  m w = (Throw e, w') -> bind m k w = (Throw e, w').
Proof. intros H. unfold bind. now rewrite H. Qed.

(** ** Comparisons of doubles

    From the specification of the primitive operations
    ([Stdlib.Floats.FloatAxioms]). *)

Lemma SFcompare_antisym x y :
  SFcompare y x = option_map CompOpp (SFcompare x y).
Proof.
  destruct x as [sx|sx| |sx mx ex], y as [sy|sy| |sy my ey]; cbn;
    try reflexivity;
    try (destruct sx; reflexivity); try (destruct sy; reflexivity);
    try (destruct sx, sy; reflexivity).
  pose proof (Pos.compare_cont_antisym mx my Eq) as Hm. cbn [CompOpp] in Hm.
  destruct sx, sy; try reflexivity; cbn [option_map]; f_equal;
    rewrite (Z.compare_antisym ex ey); destruct (ex ?= ey)%Z; cbn [CompOpp];
    try reflexivity.
  - now rewrite Hm.
  - now rewrite <- Hm.
Qed.

Lemma SFcompare_number x y c :
  SFcompare x y = Some c -> SFcompare x x = Some Eq.
Proof.
  destruct x as [s|s| |s m e]; cbn.
  - reflexivity.
  - now destruct s.
  - discriminate.
  - intros _. destruct s; now rewrite Z.compare_refl, Pos.compare_cont_refl.
Qed.

(** Both sides of a comparison that holds are numbers. *)
Lemma leb_numbers x y :
  (x <=? y)%float = true -> is_nan x = false /\ is_nan y = false.
Proof.
  unfold is_nan.
  rewrite FloatAxioms.leb_spec, !FloatAxioms.eqb_spec. unfold SFleb, SFeqb.
  destruct (SFcompare (Prim2SF x) (Prim2SF y)) as [c|] eqn:H; [|discriminate].
  intros _. rewrite (SFcompare_number _ _ _ H).
  rewrite (SFcompare_number (Prim2SF y) (Prim2SF x) (CompOpp c))
    by (now rewrite SFcompare_antisym, H).
  now split.
Qed.


Lemma leb_not_ltb x y : (x <=? y)%float = true -> (y <? x)%float = false.
Proof.
  rewrite FloatAxioms.ltb_spec, FloatAxioms.leb_spec. unfold SFltb, SFleb.
  rewrite (SFcompare_antisym (Prim2SF x) (Prim2SF y)).
  now destruct (SFcompare (Prim2SF x) (Prim2SF y)) as [[]|].
Qed.

Lemma eqb_number x : is_nan x = false -> (x =? x)%float = true.
Proof. unfold is_nan. now destruct (x =? x)%float. Qed.

(** ** Rows selected after an UPDATE or an INSERT *)

Section UpdateWhere.
Context {R : Type}.
Variables (p q : R -> bool) (f : R -> R).

Lemma filter_update_where rows :
  (forall r, q (f r) = q r) ->
  filter q (update_where p f rows) = update_where p f (filter q rows).
Proof.
  intros Hq. unfold update_where.
  induction rows as [|r rows IH]; simpl; [reflexivity|].
  destruct (p r) eqn:Hp.
  - rewrite Hq. destruct (q r); simpl; rewrite ?Hp, IH; reflexivity.
  - destruct (q r); simpl; rewrite ?Hp, IH; reflexivity.
Qed.

Lemma update_where_all rows :
  (forall r, In r rows -> p r = true) ->
  update_where p f rows = map f rows.
Proof.
  intros H. unfold update_where. apply map_ext_in.
  intros r Hr. now rewrite (H r Hr).
Qed.

Lemma update_where_none rows :
  (forall r, In r rows -> p r = false) ->
  update_where p f rows = rows.
Proof.
  intros H. unfold update_where.
  rewrite <- (map_id rows) at 2. apply map_ext_in.
  intros r Hr. now rewrite (H r Hr).
Qed.
End UpdateWhere.

Lemma hd_error_map {A B} (f : A -> B) l :
  hd_error (map f l) = option_map f (hd_error l).
Proof. now destruct l. Qed.

(** The row an UPDATE keyed on [p] leaves in front of a SELECT on [p]. *)
Lemma select_after_update {R} (p : R -> bool) (f : R -> R) rows :
  (forall r, p (f r) = p r) ->
  hd_error (filter p (update_where p f rows))
  = option_map f (hd_error (filter p rows)).
Proof.
  intros Hp. rewrite filter_update_where by assumption.
  rewrite update_where_all, hd_error_map; [reflexivity|].
  intros r Hr. now apply filter_In in Hr.
Qed.

(** A SELECT on a key that excludes [p] does not see the UPDATE. *)
Lemma select_other_after_update {R} (p q : R -> bool) (f : R -> R) rows :
  (forall r, q (f r) = q r) ->
  (forall r, q r = true -> p r = false) ->
  filter q (update_where p f rows) = filter q rows.
Proof.
  intros Hq Hpq. rewrite filter_update_where by assumption.
  apply update_where_none. intros r Hr.
  apply filter_In in Hr. now apply Hpq.
Qed.

Lemma hd_error_filter_absent {R} (p : R -> bool) rows x :
  hd_error (filter p rows) = None -> p x = true ->
  hd_error (filter p (rows ++ [x])) = Some x.
Proof.
  intros Hn Hx. rewrite filter_app. simpl. rewrite Hx.
  destruct (filter p rows); [reflexivity|discriminate].
Qed.

(** ** getOrCreateSpendingLimit, case by case *)

Section GetOrCreate.
Variables (cfg : Config) (walletId : Z) (d : Db) (c : Clock).

Lemma getOrCreate_current r fs b :
  hd_error (select_limit walletId d) = Some r ->
  reset_date r = today c ->
  getOrCreateSpendingLimit cfg walletId (mkWorld d c fs b)
  = (Ok (Some r), mkWorld d c fs b).
Proof.
  intros Hr Hd. unfold getOrCreateSpendingLimit.
  rewrite (bind_run _ _ _ (queryOne_run _ _)). cbn [db]. rewrite Hr.
  unfold bind, current_date. cbn [clock].
  now rewrite Hd, String.eqb_refl.
Qed.

Lemma getOrCreate_stale r :
  hd_error (select_limit walletId d) = Some r ->
  reset_date r <> today c ->
  getOrCreateSpendingLimit cfg walletId (quiet d c)
  = (Ok (Some (reset_row (today c) c r)),
     quiet (with_spending_limits
              (update_where (is_wallet walletId) (reset_row (today c) c)) d) c).
Proof.
  intros Hr Hd. unfold getOrCreateSpendingLimit.
  rewrite (bind_run _ _ _ (queryOne_run _ _)). cbn [db]. rewrite Hr.
  unfold bind at 1, current_date. cbn [clock].
  apply String.eqb_neq in Hd. rewrite Hd. cbn [negb].
  rewrite (bind_run _ _ _ (execute_quiet _ _ _)).
  rewrite queryOne_run. f_equal. f_equal.
  unfold select_limit, with_spending_limits. simpl.
  unfold select_limit in Hr.
  rewrite (select_after_update (fun r0 => wallet_id r0 =? walletId)) by reflexivity.
  now rewrite Hr.
Qed.

Lemma getOrCreate_absent :
  hd_error (select_limit walletId d) = None ->
  let row := fresh_row walletId (DEFAULT_DAILY_LIMIT cfg) (today c) c
                       (spending_limits d) in
  getOrCreateSpendingLimit cfg walletId (quiet d c)
  = (Ok (Some row),
     quiet (with_spending_limits (fun rows => rows ++ [row]) d) c).
Proof.
  intros Hr row. unfold getOrCreateSpendingLimit.
  rewrite (bind_run _ _ _ (queryOne_run _ _)). cbn [db]. rewrite Hr.
  unfold bind at 1, current_date. cbn [clock].
  rewrite (bind_run _ _ _ (execute_quiet _ _ _)).
  rewrite queryOne_run. f_equal. f_equal.
  unfold select_limit, with_spending_limits. simpl.
  apply hd_error_filter_absent; [exact Hr|]. simpl. apply Z.eqb_refl.
Qed.
End GetOrCreate.

(** ** checkSpendingAllowed *)

(** C6. [checkSpendingAllowed] answers [remaining = daily_limit - used_today]
    computed on the row after rollover (the stored row when its [reset_date]
    is today, the row with [used_today = 0] when it is stale, a fresh row
    with the default cap when the wallet has none) and
    [allowed = (amount <= remaining)].  With [daily_limit = 100] and
    [used_today = 80], checking 25 answers [{allowed: false, remaining: 20}]
    and checking 15 answers [{allowed: true, remaining: 20}]. *)
Theorem checkSpendingAllowed_remaining :
  (forall cfg walletId amt d c,
      let answer rem := Ok (mkAllowance (amt <=? rem)%float rem) in
      fst (checkSpendingAllowed cfg walletId amt (quiet d c))
      = match hd_error (select_limit walletId d) with
        | Some r =>
            if (reset_date r =? today c)%string
            then answer (daily_limit r - used_today r)%float
            else answer (daily_limit r - 0)%float
        | None => answer (DEFAULT_DAILY_LIMIT cfg - 0)%float
        end)
  /\ fst (checkSpendingAllowed demo_cfg 7 25 (quiet current_store this_noon))
     = Ok (mkAllowance false 20)
  /\ fst (checkSpendingAllowed demo_cfg 7 15 (quiet current_store this_noon))
     = Ok (mkAllowance true 20).
Proof.
  split; [|split; reflexivity].
  intros cfg walletId amt d c answer. unfold checkSpendingAllowed.
  destruct (hd_error (select_limit walletId d)) as [r|] eqn:Hr.
  - destruct (reset_date r =? today c)%string eqn:Hd.
    + apply String.eqb_eq in Hd.
      now rewrite (bind_run _ _ _ (getOrCreate_current cfg _ _ _ _ [] None Hr Hd)).
    + apply String.eqb_neq in Hd.
      now rewrite (bind_run _ _ _ (getOrCreate_stale cfg _ _ _ _ Hr Hd)).
  - now rewrite (bind_run _ _ _ (getOrCreate_absent cfg _ _ _ Hr)).
Qed.

(** ** Day rollover happens once *)





(** ** What one rollover read does to the store *)

Lemma select_limit_other_update walletId other f d :
  other <> walletId ->
  (forall r, wallet_id (f r) = wallet_id r) ->
  select_limit other (with_spending_limits (update_where (is_wallet walletId) f) d)
  = select_limit other d.
Proof.
  intros Hne Hf. unfold select_limit, with_spending_limits. simpl.
  apply select_other_after_update.
  - intros r. now rewrite Hf.
  - intros r Hr. unfold is_wallet. apply Z.eqb_eq in Hr. apply Z.eqb_neq. lia.
Qed.

Lemma select_limit_own_update walletId f d :
  (forall r, wallet_id (f r) = wallet_id r) ->
  hd_error (select_limit walletId
              (with_spending_limits (update_where (is_wallet walletId) f) d))
  = option_map f (hd_error (select_limit walletId d)).
Proof.
  intros Hf. unfold select_limit, with_spending_limits, is_wallet. simpl.
  apply (select_after_update (fun r => wallet_id r =? walletId)).
  intros r. now rewrite Hf.
Qed.

Lemma getOrCreate_quiet cfg walletId d c :
  exists row d',
    getOrCreateSpendingLimit cfg walletId (quiet d c) = (Ok (Some row), quiet d' c)
    /\ rolled_over cfg walletId c d row d'.
Proof.
  destruct (hd_error (select_limit walletId d)) as [r|] eqn:Hr.
  - destruct (reset_date r =? today c)%string eqn:Hd.
    + apply String.eqb_eq in Hd.
      exists r, d. split; [exact (getOrCreate_current cfg _ _ _ _ [] None Hr Hd)|].
      unfold rolled_over. rewrite Hr, Hd, String.eqb_refl. tauto.
    + pose proof Hd as Hd'. apply String.eqb_neq in Hd'.
      eexists; eexists. split; [exact (getOrCreate_stale cfg _ _ _ _ Hr Hd')|].
      unfold rolled_over. rewrite Hr, Hd.
      repeat (split; [reflexivity|]).
      split; [intros other Hne; now apply select_limit_other_update|].
      split; [rewrite select_limit_own_update by reflexivity; now rewrite Hr|].
      repeat split.
  - eexists; eexists. split; [exact (getOrCreate_absent cfg _ _ _ Hr)|].
    unfold rolled_over. rewrite Hr.
    repeat (split; [reflexivity|]).
    split.
    { intros other Hne. unfold select_limit, with_spending_limits. simpl.
      rewrite filter_app. simpl.
      replace (walletId =? other) with false by (symmetry; apply Z.eqb_neq; lia).
      apply app_nil_r. }
    split.
    { unfold select_limit, with_spending_limits. simpl.
      apply hd_error_filter_absent; [exact Hr|]. simpl. apply Z.eqb_refl. }
    split; reflexivity.
Qed.




(** ** Status transitions *)

Lemma updateTransactionStatus_quiet id st options d c :
  updateTransactionStatus id st options (quiet d c)
  = (Ok (option_map (set_status st options c) (hd_error (select_transaction id d))),
     quiet (with_transactions
              (update_where (has_id id) (set_status st options c)) d) c).
Proof.
  unfold updateTransactionStatus.
  rewrite (bind_run _ _ _ (execute_quiet _ _ _)), queryOne_run.
  f_equal. f_equal. unfold select_transaction, with_transactions. simpl.
  now apply (select_after_update (fun r => tx_id r =? id)).
Qed.

Lemma select_transaction_other id other f d :
  other <> id ->
  (forall r, tx_id (f r) = tx_id r) ->
  select_transaction other (with_transactions (update_where (has_id id) f) d)
  = select_transaction other d.
Proof.
  intros Hne Hf. unfold select_transaction, with_transactions. simpl.
  apply select_other_after_update.
  - intros r. now rewrite Hf.
  - intros r Hr. unfold has_id. apply Z.eqb_eq in Hr. apply Z.eqb_neq. lia.
Qed.

Lemma completeWithdrawal_quiet requestId d c :
  completeWithdrawal requestId (quiet d c)
  = (Ok (option_map (complete_row c) (hd_error (select_withdrawal requestId d))),
     quiet (with_withdrawal_requests
              (update_where (fun r => wr_id r =? requestId) (complete_row c)) d) c).
Proof.
  unfold completeWithdrawal.
  rewrite (bind_run _ _ _ (execute_quiet _ _ _)), queryOne_run.
  f_equal. f_equal. unfold select_withdrawal, with_withdrawal_requests. simpl.
  now apply (select_after_update (fun r => wr_id r =? requestId)).
Qed.

(** C2, as stated, fails: a confirmed transaction is moved to failed, a
    failed one to confirmed, and a failed withdrawal request to completed. *)
Lemma terminal_status_overwritten :
  stored_status 1 ledger_store = Some Confirmed
  /\ stored_status 1
       (db (snd (updateTransactionStatus 1 Failed
                   (mkStatusOptions None (Some "late failure"))
                   (quiet ledger_store this_noon))))
     = Some Failed
  /\ stored_status 2 ledger_store = Some Failed
  /\ stored_status 2
       (db (snd (updateTransactionStatus 2 Confirmed
                   (mkStatusOptions (Some "sigC") None)
                   (quiet ledger_store this_noon))))
     = Some Confirmed
  /\ stored_withdrawal_status 1 ledger_store = Some WFailed
  /\ stored_withdrawal_status 1
       (db (snd (completeWithdrawal 1 (quiet ledger_store this_noon))))
     = Some WCompleted.
Proof. repeat split. Qed.

(** C2, amended. [updateTransactionStatus] writes the requested status on
    the row of the given id whatever status the row had, terminal or not,
    and returns the rewritten row; amount and fee are kept and rows of other
    ids are untouched.  [completeWithdrawal] writes [completed] on the
    request of the given id whatever status it had.  The stored status is
    therefore left as it was only when the requested one equals it. *)
Theorem status_transition_overwrites :
  (forall id st options d c r,
      hd_error (select_transaction id d) = Some r ->
      exists r' d',
        updateTransactionStatus id st options (quiet d c) = (Ok (Some r'), quiet d' c)
        /\ hd_error (select_transaction id d') = Some r'
        /\ status r' = st
        /\ amount r' = amount r /\ fee r' = fee r
        /\ forall other, other <> id ->
             select_transaction other d' = select_transaction other d)
  /\ (forall requestId d c r,
      hd_error (select_withdrawal requestId d) = Some r ->
      exists r' d',
        completeWithdrawal requestId (quiet d c) = (Ok (Some r'), quiet d' c)
        /\ hd_error (select_withdrawal requestId d') = Some r'
        /\ wr_status r' = WCompleted).
Proof.
  split.
  - intros id st options d c r Hr.
    exists (set_status st options c r).
    eexists. rewrite updateTransactionStatus_quiet, Hr.
    split; [reflexivity|]. split.
    + unfold select_transaction, with_transactions, has_id in *. simpl.
      rewrite (select_after_update (fun r0 => tx_id r0 =? id)) by reflexivity.
      now rewrite Hr.
    + repeat (split; [reflexivity|]).
      intros other Hne. now apply select_transaction_other.
  - intros requestId d c r Hr.
    exists (complete_row c r).
    eexists. rewrite completeWithdrawal_quiet, Hr.
    split; [reflexivity|]. split; [|reflexivity].
    unfold select_withdrawal, with_withdrawal_requests in *. simpl.
    rewrite (select_after_update (fun r0 => wr_id r0 =? requestId)) by reflexivity.
    now rewrite Hr.
Qed.

Lemma status_transition_overwrites_witness :
  (exists r' d',
      updateTransactionStatus 1 Failed no_status_options (quiet ledger_store this_noon)
      = (Ok (Some r'), quiet d' this_noon)
      /\ hd_error (select_transaction 1 d') = Some r'
      /\ status r' = Failed
      /\ amount r' = amount confirmed_tx /\ fee r' = fee confirmed_tx
      /\ forall other, other <> 1 ->
           select_transaction other d' = select_transaction other ledger_store)
  /\ (exists r' d',
      completeWithdrawal 1 (quiet ledger_store this_noon)
      = (Ok (Some r'), quiet d' this_noon)
      /\ hd_error (select_withdrawal 1 d') = Some r'
      /\ wr_status r' = WCompleted).
Proof.
  destruct status_transition_overwrites as [Htx Hwr]. split.
  - apply (Htx 1 Failed no_status_options ledger_store this_noon confirmed_tx).
    reflexivity.
  - apply (Hwr 1 ledger_store this_noon failed_withdrawal). reflexivity.
Defined.

(** C4, as stated, fails: the stored reference "sigA" is replaced by the
    reference "sigB" that a later transition provides. *)
Lemma settlement_reference_replaced :
  option_map tx_signature (hd_error (select_transaction 1 ledger_store))
  = Some (Some "sigA")
  /\ option_map tx_signature
       (hd_error (select_transaction 1
          (db (snd (updateTransactionStatus 1 Confirmed
                      (mkStatusOptions (Some "sigB") None)
                      (quiet ledger_store this_noon))))))
     = Some (Some "sigB").
Proof. split; reflexivity. Qed.

(** C4, amended. A transition that provides a non-empty settlement reference
    stores that reference, whether or not one was stored already (the last
    writer wins); the stored reference is kept only when the transition
    provides none, or the empty string. *)
Theorem settlement_reference_last_writer id st options d c r :
  hd_error (select_transaction id d) = Some r ->
  exists r',
    fst (updateTransactionStatus id st options (quiet d c)) = Ok (Some r')
    /\ hd_error (select_transaction id
                   (db (snd (updateTransactionStatus id st options (quiet d c)))))
       = Some r'
    /\ (forall s, txSignature options = Some s -> s <> "" ->
          tx_signature r' = Some s)
    /\ (txSignature options = None \/ txSignature options = Some "" ->
          tx_signature r' = tx_signature r).
Proof.
  intros Hr. exists (set_status st options c r).
  rewrite updateTransactionStatus_quiet, Hr. cbn [fst snd db option_map].
  split; [reflexivity|]. split.
  - unfold select_transaction, with_transactions, has_id in *. simpl.
    rewrite (select_after_update (fun r0 => tx_id r0 =? id)) by reflexivity.
    now rewrite Hr.
  - split.
    + intros s Hs Hne. simpl. rewrite Hs.
      destruct s; [congruence|reflexivity].
    + intros [Hs|Hs]; simpl; now rewrite Hs.
Qed.

Lemma settlement_reference_last_writer_witness :
  exists r',
    fst (updateTransactionStatus 1 Confirmed (mkStatusOptions (Some "sigB") None)
           (quiet ledger_store this_noon)) = Ok (Some r')
    /\ hd_error (select_transaction 1
                   (db (snd (updateTransactionStatus 1 Confirmed
                               (mkStatusOptions (Some "sigB") None)
                               (quiet ledger_store this_noon)))))
       = Some r'
    /\ (forall s, Some "sigB" = Some s -> s <> "" -> tx_signature r' = Some s)
    /\ (Some "sigB" = None \/ Some "sigB" = Some "" ->
          tx_signature r' = tx_signature confirmed_tx).
Proof.
  apply (settlement_reference_last_writer 1 Confirmed
           (mkStatusOptions (Some "sigB") None) ledger_store this_noon confirmed_tx).
  reflexivity.
Defined.

(** ** Recording spend *)

Lemma getOrCreate_view cfg walletId d c :
  exists row d1,
    getOrCreateSpendingLimit cfg walletId (quiet d c) = (Ok (Some row), quiet d1 c)
    /\ hd_error (select_limit walletId d1) = Some row
    /\ reset_date row = today c
    /\ (daily_limit row, used_today row) = view cfg (today c) walletId d.
Proof.
  destruct (getOrCreate_quiet cfg walletId d c) as (row & d1 & Hrun & Hspec).
  exists row, d1. split; [exact Hrun|].
  destruct Hspec as (_ & _ & _ & _ & _ & Hown & Hdate & Hcase).
  repeat (split; [assumption|]).
  unfold view. destruct (hd_error (select_limit walletId d)) as [r|].
  - destruct Hcase as [Hl Hcase].
    destruct (reset_date r =? today c)%string.
    + destruct Hcase as [-> _]. reflexivity.
    + rewrite Hcase. reflexivity.
  - rewrite Hcase. reflexivity.
Qed.

Lemma getLimitStatus_view cfg walletId d c :
  fst (getLimitStatus cfg walletId (quiet d c))
  = Ok (mkLimitStatus (fst (view cfg (today c) walletId d))
                      (snd (view cfg (today c) walletId d))
                      (fst (view cfg (today c) walletId d)
                       - snd (view cfg (today c) walletId d))%float
                      (today c)).
Proof.
  destruct (getOrCreate_view cfg walletId d c) as (row & d1 & Hrun & _ & Hdate & Hview).
  unfold getLimitStatus. rewrite (bind_run _ _ _ Hrun).
  rewrite <- Hview, <- Hdate. reflexivity.
Qed.

Lemma checkSpendingAllowed_view cfg walletId amt d c :
  fst (checkSpendingAllowed cfg walletId amt (quiet d c))
  = let rem := (fst (view cfg (today c) walletId d)
                - snd (view cfg (today c) walletId d))%float in
    Ok (mkAllowance (amt <=? rem)%float rem).
Proof.
  destruct (getOrCreate_view cfg walletId d c) as (row & d1 & Hrun & _ & _ & Hview).
  unfold checkSpendingAllowed. rewrite (bind_run _ _ _ Hrun).
  rewrite <- Hview. reflexivity.
Qed.

(** One [recordSpending]: it returns the row it leaves in the store, dated
    today, with the cap unchanged and the amount added to what a read of the
    day saw. *)
Lemma recordSpending_quiet cfg walletId amt d c :
  exists row d',
    recordSpending cfg walletId amt (quiet d c) = (Ok (Some row), quiet d' c)
    /\ hd_error (select_limit walletId d') = Some row
    /\ reset_date row = today c
    /\ daily_limit row = fst (view cfg (today c) walletId d)
    /\ used_today row = (snd (view cfg (today c) walletId d) + amt)%float.
Proof.
  destruct (getOrCreate_view cfg walletId d c)
    as (row & d1 & Hrun & Hown & Hdate & Hview).
  exists (add_spending amt c row).
  eexists. unfold recordSpending.
  rewrite (bind_run _ _ _ Hrun), (bind_run _ _ _ (execute_quiet _ _ _)), queryOne_run.
  cbn [db].
  assert (Hsel : hd_error
            (select_limit walletId
               (with_spending_limits
                  (update_where (is_wallet walletId) (add_spending amt c)) d1))
          = Some (add_spending amt c row)).
  { rewrite select_limit_own_update by reflexivity. now rewrite Hown. }
  fold (is_wallet walletId). rewrite Hsel.
  split; [reflexivity|]. split; [exact Hsel|].
  rewrite <- Hview. repeat split. exact Hdate.
Qed.

Lemma view_of_row cfg walletId d row :
  hd_error (select_limit walletId d) = Some row ->
  view cfg (reset_date row) walletId d = (daily_limit row, used_today row).
Proof. intros H. unfold view. now rewrite H, String.eqb_refl. Qed.




(** ** A sequence of recordings *)





(** ** Creating a transaction *)

Lemma next_id_above ids i : In i ids -> i < next_id ids.
Proof.
  unfold next_id. induction ids as [|j ids IH]; cbn [fold_right In]; [tauto|].
  intros [->|Hi]; [lia|]. specialize (IH Hi). lia.
Qed.

Lemma tx_id_below_next txs r : In r txs -> tx_id r < next_id (map tx_id txs).
Proof. intros H. apply next_id_above. now apply in_map. Qed.

(** The id after a fresh id is the next integer. *)
Lemma next_id_snoc ids : next_id (ids ++ [next_id ids]) = next_id ids + 1.
Proof.
  unfold next_id. set (n := 1 + fold_right Z.max 0 ids).
  assert (H : forall acc, fold_right Z.max 0 (ids ++ [acc])
                          = Z.max (fold_right Z.max 0 ids) acc).
  { intros acc. induction ids as [|j ids IH]; cbn [fold_right app]; [lia|].
    rewrite IH. lia. }
  rewrite H. subst n. lia.
Qed.

Lemma newest_acc rows acc a :
  fold_left
    (fun acc r =>
       match acc with
       | None => Some r
       | Some a => if tx_id a <? tx_id r then Some r else Some a
       end) rows acc = Some a ->
  acc = Some a \/ In a rows.
Proof.
  revert acc. induction rows as [|r rows IH]; intros acc H; simpl in *; [now left|].
  apply IH in H. destruct H as [H|H]; [|now right; right].
  destruct acc as [b|].
  - destruct (tx_id b <? tx_id r); injection H as <-; [right|]; now left.
  - injection H as <-. right. now left.
Qed.

(** The row of greatest id is the one appended last when its id is fresh. *)
Lemma newest_appended rows x :
  (forall r, In r rows -> tx_id r < tx_id x) ->
  newest (rows ++ [x]) = Some x.
Proof.
  intros Hlt. unfold newest. rewrite fold_left_app. simpl.
  match goal with |- match ?acc with _ => _ end = _ => destruct acc as [a|] eqn:Ha end;
    [|reflexivity].
  apply newest_acc in Ha. destruct Ha as [Ha|Ha]; [discriminate|].
  apply Hlt in Ha. apply Z.ltb_lt in Ha. now rewrite Ha.
Qed.

Lemma filter_fresh_id txs i :
  (forall r, In r txs -> tx_id r < i) ->
  filter (fun r => tx_id r =? i) txs = [].
Proof.
  intros H. induction txs as [|r txs IH]; simpl; [reflexivity|].
  replace (tx_id r =? i) with false.
  - apply IH. intros r' Hr'. apply H. now right.
  - symmetry. apply Z.eqb_neq. specialize (H r (or_introl eq_refl)). lia.
Qed.

Lemma TxType_eqb_refl t : TxType_eqb t t = true.
Proof. now destruct t. Qed.

(** [createTransaction] finds the row it inserted when the amount is a
    number: the SELECT compares amounts. *)
Lemma createTransaction_quiet fromWalletId amt txType options d c :
  is_nan amt = false ->
  createTransaction fromWalletId amt txType options (quiet d c)
  = (Ok (new_transaction fromWalletId amt txType options c (transactions d)),
     quiet (insert_transaction fromWalletId amt txType options c d) c).
Proof.
  intros Hnum. unfold createTransaction.
  rewrite (bind_run _ _ _ (execute_quiet _ _ _)).
  unfold bind, query. cbn [db].
  unfold select_created, insert_transaction, with_transactions. cbn [transactions].
  rewrite filter_app. cbn [filter new_transaction from_wallet_id amount tx_type].
  rewrite Z.eqb_refl, (eqb_number _ Hnum), TxType_eqb_refl. cbn [andb].
  rewrite newest_appended; [reflexivity|].
  intros r Hr. apply filter_In in Hr. cbn [tx_id].
  apply tx_id_below_next. tauto.
Qed.

(** A status transition aimed at the row just appended rewrites that row
    and no other. *)
Lemma update_appended txs x f :
  (forall r, In r txs -> tx_id r < tx_id x) ->
  update_where (has_id (tx_id x)) f (txs ++ [x]) = txs ++ [f x].
Proof.
  intros Hlt. unfold update_where. rewrite map_app. simpl.
  unfold has_id at 2. rewrite Z.eqb_refl. f_equal.
  rewrite <- (map_id txs) at 2. apply map_ext_in. intros r Hr.
  unfold has_id. replace (tx_id r =? tx_id x) with false; [reflexivity|].
  symmetry. apply Z.eqb_neq. specialize (Hlt r Hr). lia.
Qed.

(** A status transition aimed at the last row but one. *)
Lemma update_last_but_one txs x y f :
  (forall r, In r txs -> tx_id r < tx_id x) ->
  tx_id x < tx_id y ->
  update_where (has_id (tx_id x)) f (txs ++ [x; y]) = txs ++ [f x; y].
Proof.
  intros Hlt Hxy.
  change (txs ++ [x; y]) with (txs ++ [x] ++ [y]). rewrite app_assoc.
  unfold update_where at 1. rewrite map_app.
  change (map (fun r => if has_id (tx_id x) r then f r else r) (txs ++ [x]))
    with (update_where (has_id (tx_id x)) f (txs ++ [x])).
  rewrite (update_appended _ _ _ Hlt). cbn [map].
  unfold has_id at 1. replace (tx_id y =? tx_id x) with false
    by (symmetry; apply Z.eqb_neq; lia).
  now rewrite <- app_assoc.
Qed.

Lemma select_appended txs x :
  (forall r, In r txs -> tx_id r < tx_id x) ->
  filter (fun r => tx_id r =? tx_id x) (txs ++ [x]) = [x].
Proof.
  intros Hlt. rewrite filter_app, filter_fresh_id by assumption.
  simpl. now rewrite Z.eqb_refl.
Qed.

(** ** Steps of a computation *)

Lemma call_ok {A} (o : Outcome A) w a : o = Ok a -> call o w = (Ok a, w).
Proof. intros ->. reflexivity. Qed.

Lemma await_ok {A} (o : Outcome A) resume w a :
  o = Ok a ->
  await o resume w = (Ok a, mkWorld (db w) resume (faults w) (begun w)).
Proof. intros ->. reflexivity. Qed.


Lemma try_catch_ok {A} (m : M A) h w a w' :
  m w = (Ok a, w') -> try_catch m h w = (Ok a, w').
Proof. intros H. unfold try_catch. now rewrite H. Qed.

Lemma try_catch_throw {A} (m : M A) h w e w' :
  m w = (Throw e, w') -> try_catch m h w = h e w'.
Proof. intros H. unfold try_catch. now rewrite H. Qed.

(** ** The unit of work of executeTransfer *)

Lemma recordSpending_frame cfg walletId amt d c :
  let d' := db (snd (recordSpending cfg walletId amt (quiet d c))) in
  users d' = users d /\ wallets d' = wallets d
  /\ transactions d' = transactions d
  /\ withdrawal_requests d' = withdrawal_requests d.
Proof.
  destruct (getOrCreate_quiet cfg walletId d c) as (row & d1 & Hrun & Hspec).
  destruct Hspec as (Hu & Hw & Ht & Hwr & _).
  unfold recordSpending.
  rewrite (bind_run _ _ _ Hrun), (bind_run _ _ _ (execute_quiet _ _ _)), queryOne_run.
  cbn. auto.
Qed.

Lemma begin_quiet d c :
  begin_transaction (quiet d c) = (Ok tt, mkWorld d c [] (Some d)).
Proof. reflexivity. Qed.

(** The first write after BEGIN: [saveDb] exports the connection, the
    transaction is rolled back and the write with it. *)
Lemma execute_begun stmt d c snapshot :
  execute stmt (mkWorld d c [] (Some snapshot)) = (Ok tt, quiet snapshot c).
Proof. reflexivity. Qed.

Lemma unmatched_update {R} (p : R -> bool) (f : R -> R) rows :
  filter p rows = [] -> update_where p f rows = rows.
Proof.
  intros Hnone. apply update_where_none. intros r Hr.
  destruct (p r) eqn:Hp; [|reflexivity].
  assert (Hin : In r (filter p rows)) by (apply filter_In; now split).
  rewrite Hnone in Hin. destruct Hin.
Qed.

(** [recordSpending] as the first operation of a unit of work. *)
Lemma recordSpending_begun cfg walletId amt d c :
  exists d1,
    fst (recordSpending cfg walletId amt (mkWorld d c [] (Some d)))
    = Ok (hd_error (select_limit walletId d1))
    /\ snd (recordSpending cfg walletId amt (mkWorld d c [] (Some d))) = quiet d1 c
    /\ users d1 = users d /\ wallets d1 = wallets d
    /\ transactions d1 = transactions d
    /\ withdrawal_requests d1 = withdrawal_requests d
    /\ spending_limits d1 = limits_after_executeTransfer walletId amt c d.
Proof.
  unfold recordSpending, limits_after_executeTransfer.
  destruct (hd_error (select_limit walletId d)) as [r|] eqn:Hr.
  - destruct (reset_date r =? today c)%string eqn:Hd.
    + apply String.eqb_eq in Hd. exists d.
      rewrite (bind_run _ _ _ (getOrCreate_current cfg _ _ _ _ [] (Some d) Hr Hd)).
      rewrite (bind_run _ _ _ (execute_begun _ _ _ _)), queryOne_run.
      cbn [fst snd db]. repeat split.
    + eexists.
      assert (Hget : getOrCreateSpendingLimit cfg walletId (mkWorld d c [] (Some d))
                     = (Ok (Some r), quiet d c)).
      { unfold getOrCreateSpendingLimit.
        rewrite (bind_run _ _ _ (queryOne_run _ _)). cbn [db]. rewrite Hr.
        unfold bind at 1, current_date. cbn [clock]. rewrite Hd. cbn [negb].
        rewrite (bind_run _ _ _ (execute_begun _ _ _ _)), queryOne_run.
        cbn [db]. now rewrite Hr. }
      rewrite (bind_run _ _ _ Hget), (bind_run _ _ _ (execute_quiet _ _ _)),
              queryOne_run.
      cbn [fst snd db]. repeat split.
  - eexists.
    assert (Hget : getOrCreateSpendingLimit cfg walletId (mkWorld d c [] (Some d))
                   = (Ok None, quiet d c)).
    { unfold getOrCreateSpendingLimit.
      rewrite (bind_run _ _ _ (queryOne_run _ _)). cbn [db]. rewrite Hr.
      unfold bind at 1, current_date. cbn [clock].
      rewrite (bind_run _ _ _ (execute_begun _ _ _ _)), queryOne_run.
      cbn [db]. now rewrite Hr. }
    rewrite (bind_run _ _ _ Hget), (bind_run _ _ _ (execute_quiet _ _ _)),
            queryOne_run.
    cbn [fst snd db]. repeat (split; [reflexivity|]).
    cbn [spending_limits with_spending_limits].
    apply unmatched_update. unfold select_limit in Hr.
    now destruct (filter _ (spending_limits d)).
Qed.

Lemma updateTransactionStatus_appended txs x st options d c :
  transactions d = txs ++ [x] ->
  (forall r, In r txs -> tx_id r < tx_id x) ->
  updateTransactionStatus (tx_id x) st options (quiet d c)
  = (Ok (Some (set_status st options c x)),
     quiet (with_transactions (fun _ => txs ++ [set_status st options c x]) d) c).
Proof.
  intros Hd Hfresh. rewrite updateTransactionStatus_quiet.
  unfold select_transaction. rewrite Hd, (select_appended _ _ Hfresh).
  cbn [hd_error option_map]. f_equal. f_equal.
  unfold with_transactions. now rewrite Hd, (update_appended _ _ _ Hfresh).
Qed.

(** [executeTransfer] called outside a unit of work, no write failing: the
    COMMIT finds no transaction, neither does the ROLLBACK of the handler,
    whose error is the one thrown.  The confirmed row stays in the ledger;
    the spending limits are as [limits_after_executeTransfer] says. *)
Lemma executeTransfer_quiet cfg fromWalletId toWalletId_ amt signature_ fee_ d c :
  is_nan amt = false ->
  exists d',
    executeTransfer cfg fromWalletId toWalletId_ amt signature_ fee_ (quiet d c)
    = (Throw (JsError no_transaction), quiet d' c)
    /\ transactions d'
       = transactions d
         ++ [settled_row fromWalletId toWalletId_ amt signature_ fee_ c
                         (transactions d)]
    /\ spending_limits d'
       = limits_after_executeTransfer fromWalletId (amt + fee_) c d
    /\ users d' = users d /\ wallets d' = wallets d
    /\ withdrawal_requests d' = withdrawal_requests d.
Proof.
  intros Hnum.
  destruct (recordSpending_begun cfg fromWalletId (amt + fee_)%float d c)
    as (d1 & Hres & Hworld & Hu & Hw & Ht & Hwr & Hsl).
  set (x := new_transaction fromWalletId amt Transfer
              (settled_options toWalletId_ fee_ signature_) c (transactions d1)).
  assert (Hfresh : forall r, In r (transactions d1) -> tx_id r < tx_id x)
    by (intros r Hr; now apply tx_id_below_next).
  assert (Hrec : recordSpending cfg fromWalletId (amt + fee_)%float
                   (mkWorld d c [] (Some d))
                 = (Ok (hd_error (select_limit fromWalletId d1)), quiet d1 c)).
  { rewrite <- Hres, <- Hworld. now destruct (recordSpending _ _ _ _). }
  set (confirm := set_status Confirmed (mkStatusOptions (Some signature_) None) c).
  assert (Hfn : (recordSpending cfg fromWalletId (amt + fee_)%float ;;
                 tx <- createTransaction fromWalletId amt Transfer
                         (mkCreateOptions (Some toWalletId_) None (Some fee_)
                                          (Some signature_)) ;;
                 updateTransactionStatus (tx_id tx) Confirmed
                   (mkStatusOptions (Some signature_) None))
                  (mkWorld d c [] (Some d))
                = (Ok (Some (confirm x)),
                   quiet (with_transactions
                            (fun _ => transactions d1 ++ [confirm x])
                            (insert_transaction fromWalletId amt Transfer
                               (settled_options toWalletId_ fee_ signature_) c d1))
                         c)).
  { rewrite (bind_run _ _ _ Hrec).
    rewrite (bind_run _ _ _ (createTransaction_quiet _ _ _ _ _ _ Hnum)).
    fold (settled_options toWalletId_ fee_ signature_). fold x.
    exact (updateTransactionStatus_appended (transactions d1) x _ _
             (insert_transaction fromWalletId amt Transfer
                (settled_options toWalletId_ fee_ signature_) c d1) c
             eq_refl Hfresh). }
  eexists. unfold executeTransfer, runTransaction.
  rewrite (bind_run _ _ _ (begin_quiet _ _)).
  erewrite try_catch_throw.
  2:{ rewrite (bind_run _ _ _ Hfn). reflexivity. }
  split; [reflexivity|].
  cbn [transactions spending_limits users wallets withdrawal_requests
       with_transactions insert_transaction].
  unfold settled_row, confirm. subst x. rewrite Ht.
  repeat split; assumption.
Qed.

(** ** The orchestrator, step by step *)

Lemma checkSpendingAllowed_quiet cfg walletId amt d c :
  exists row d1,
    checkSpendingAllowed cfg walletId amt (quiet d c)
    = (Ok (mkAllowance (amt <=? daily_limit row - used_today row)%float
                       (daily_limit row - used_today row)%float),
       quiet d1 c)
    /\ getOrCreateSpendingLimit cfg walletId (quiet d c)
       = (Ok (Some row), quiet d1 c)
    /\ rolled_over cfg walletId c d row d1.
Proof.
  destruct (getOrCreate_quiet cfg walletId d c) as (row & d1 & Hrun & Hspec).
  exists row, d1. unfold checkSpendingAllowed.
  rewrite (bind_run _ _ _ Hrun). auto.
Qed.

(** An amount that passed the spending check is a number. *)
Lemma allowed_amount_is_number cfg walletId amt w rem :
  fst (checkSpendingAllowed cfg walletId amt w) = Ok (mkAllowance true rem) ->
  is_nan amt = false.
Proof.
  unfold checkSpendingAllowed, bind.
  destruct (getOrCreateSpendingLimit cfg walletId w) as [[[limit|]|e] w'];
    cbn; try discriminate.
  intros H. injection H as Hle _. exact (proj1 (leb_numbers _ _ Hle)).
Qed.

(** Running the part of a transfer that precedes the settlement call, once
    the spending check is known to pass. *)
Ltac run_checks Hchk Hallow Hpk Hbal Hnum :=
  rewrite (bind_run _ _ _ Hchk); cbn [allowed]; rewrite Hallow; cbn [negb];
  rewrite (bind_run _ _ _ (call_ok _ _ _ Hpk));
  rewrite (bind_run _ _ _ (await_ok _ _ _ _ Hbal)); cbn [negb db faults begun];
  rewrite (bind_run _ _ _ (createTransaction_quiet _ _ _ _ _ _ Hnum)).

(** C3 fails on the code.  On every internal transfer that settles, the row
    created before the settlement call is not the row that is confirmed:
    [executeTransfer] inserts a second row for the same transfer and
    confirms that one.  Its unit of work then fails at COMMIT (the first
    write inside it ended the transaction), so the transfer is answered as
    failed and the first row is marked [failed]: the ledger has gained two
    rows for one transfer, a failed one and a confirmed one. *)
Theorem transfer_confirms_a_second_row
  cfg ext fromWallet toWallet amt d c rem pk kp pk2 sig :
  fst (checkSpendingAllowed cfg (w_id fromWallet) amt (quiet d c))
  = Ok (mkAllowance true rem) ->
  newPublicKey ext (public_key fromWallet) = Ok pk ->
  hasEnoughUsdc ext pk amt = Ok true ->
  keypairFromBase58 ext (encrypted_secret_key fromWallet) = Ok kp ->
  newPublicKey ext (public_key toWallet) = Ok pk2 ->
  transferUsdc ext kp pk2 (amt - platform_fee cfg amt)%float = Ok sig ->
  sig <> "" ->
  exists p q d',
    transfer cfg ext fromWallet toWallet amt (quiet d c)
    = (Ok (mkTransferResult false None None None
             (Some "cannot rollback - no transaction is active")),
       quiet d' (settle_resume ext))
    /\ transactions d' = transactions d ++ [p; q]
    /\ tx_id p = next_id (map tx_id (transactions d))
    /\ created_at p = timestamp (balance_resume ext)
    /\ status p = Failed
    /\ tx_signature p = None
    /\ error_message p = Some "cannot rollback - no transaction is active"
    /\ tx_id q = tx_id p + 1
    /\ created_at q = timestamp (settle_resume ext)
    /\ status q = Confirmed
    /\ tx_signature q = Some sig
    /\ from_wallet_id q = from_wallet_id p
    /\ to_wallet_id q = to_wallet_id p
    /\ amount q = amount p
    /\ fee q = fee p.
Proof.
  intros Hallowed Hpk Hbal Hkp Hpk2 Hsig Hne.
  pose proof (allowed_amount_is_number _ _ _ _ _ Hallowed) as Hnum.
  destruct (checkSpendingAllowed_quiet cfg (w_id fromWallet) amt d c)
    as (row & d1 & Hchk & Hget & Hroll).
  rewrite Hchk in Hallowed. cbn [fst] in Hallowed.
  injection Hallowed as Hallow Hrem.
  assert (Ht1 : transactions d1 = transactions d) by apply Hroll.
  set (p := new_transaction (w_id fromWallet) amt Transfer
              (internal_options toWallet (platform_fee cfg amt))
              (balance_resume ext) (transactions d1)).
  set (d2 := insert_transaction (w_id fromWallet) amt Transfer
               (internal_options toWallet (platform_fee cfg amt))
               (balance_resume ext) d1).
  destruct (executeTransfer_quiet cfg (w_id fromWallet) (w_id toWallet) amt sig
              (platform_fee cfg amt) d2 (settle_resume ext) Hnum)
    as (d3 & Hexec & Htx & _).
  set (q := settled_row (w_id fromWallet) (w_id toWallet) amt sig
              (platform_fee cfg amt) (settle_resume ext) (transactions d2)) in *.
  set (fail := set_status Failed (mkStatusOptions None (Some no_transaction))
                          (settle_resume ext)).
  assert (Ht2 : transactions d2 = transactions d1 ++ [p]) by reflexivity.
  assert (Hfresh : forall r, In r (transactions d1) -> tx_id r < tx_id p)
    by (intros r Hr; now apply tx_id_below_next).
  assert (Hq : tx_id q = tx_id p + 1).
  { unfold q, settled_row. cbn [set_status tx_id new_transaction].
    rewrite Ht2, map_app. apply next_id_snoc. }
  exists (fail p), q. eexists. split.
  { unfold transfer. run_checks Hchk Hallow Hpk Hbal Hnum.
    change (amt * (PLATFORM_FEE_PERCENT cfg / 100))%float with (platform_fee cfg amt).
    fold (internal_options toWallet (platform_fee cfg amt)). fold p. fold d2.
    erewrite try_catch_throw.
    2:{ rewrite (bind_run _ _ _ (call_ok _ _ _ Hkp)),
                (bind_run _ _ _ (call_ok _ _ _ Hpk2)),
                (bind_run _ _ _ (await_ok _ _ _ _ Hsig)).
        cbn [db faults begun]. apply bind_throw. exact Hexec. }
    cbn [message_of].
    rewrite (bind_run _ _ _ (updateTransactionStatus_quiet _ _ _ _ _)).
    reflexivity. }
  cbn [transactions with_transactions].
  split.
  { rewrite Htx, Ht2, <- app_assoc. cbn [app]. fold fail.
    rewrite update_last_but_one by (assumption || lia). now rewrite Ht1. }
  split; [unfold p; cbn; now rewrite Ht1|].
  split; [reflexivity|]. split; [reflexivity|]. split; [reflexivity|].
  split; [reflexivity|].
  split; [exact Hq|]. split; [reflexivity|]. split; [reflexivity|].
  split.
  { unfold q, settled_row, settled_options. cbn.
    destruct sig; [congruence|reflexivity]. }
  repeat split.
Qed.

Lemma transfer_confirms_a_second_row_witness :
  exists p q d',
    transfer demo_cfg (demo_ext (Ok sig1)) alice bob 10
             (quiet current_store this_morning)
    = (Ok (mkTransferResult false None None None
             (Some "cannot rollback - no transaction is active")),
       quiet d' this_evening)
    /\ transactions d' = transactions current_store ++ [p; q]
    /\ tx_id p = 1
    /\ created_at p = timestamp this_noon
    /\ status p = Failed
    /\ tx_signature p = None
    /\ error_message p = Some "cannot rollback - no transaction is active"
    /\ tx_id q = tx_id p + 1
    /\ created_at q = timestamp this_evening
    /\ status q = Confirmed
    /\ tx_signature q = Some sig1
    /\ from_wallet_id q = from_wallet_id p
    /\ to_wallet_id q = to_wallet_id p
    /\ amount q = amount p
    /\ fee q = fee p.
Proof.
  apply (transfer_confirms_a_second_row demo_cfg (demo_ext (Ok sig1)) alice bob 10
           current_store this_morning 20 (public_key alice)
           (encrypted_secret_key alice) (public_key bob) sig1);
    try reflexivity.
  discriminate.
Defined.

(** ** Failed settlement *)

Lemma view_ext cfg day walletId d d' :
  spending_limits d' = spending_limits d ->
  view cfg day walletId d' = view cfg day walletId d.
Proof. intros H. unfold view, select_limit. now rewrite H. Qed.

Lemma rollover_keeps_view cfg walletId d c row d1 c1 :
  getOrCreateSpendingLimit cfg walletId (quiet d c) = (Ok (Some row), quiet d1 c) ->
  today c1 = today c ->
  view cfg (today c1) walletId d1 = view cfg (today c) walletId d.
Proof.
  intros Hget Hday.
  destruct (getOrCreate_view cfg walletId d c)
    as (row' & d1' & Hrun & Hown & Hdate & Hview).
  rewrite Hget in Hrun. injection Hrun as <- <-.
  rewrite Hday, <- Hview, <- Hdate. now apply view_of_row.
Qed.





(** ** Atomicity *)

(** C1 fails on the code, on both paths.  Internal transfer, no write
    failing: the settlement succeeds, [executeTransfer] confirms a row and
    throws, the spend is not recorded ([used_today] stays 80) and the caller
    is told the transfer failed.  External transfer: the spend-recording
    write and the status transition are two separate writes outside any
    unit of work; when the second fails the spend stays recorded
    ([used_today] 80 becomes 90) while the transaction is marked failed. *)
Theorem transfers_are_not_atomic :
  let settled :=
    transfer demo_cfg (demo_ext (Ok sig1)) alice bob 10
             (quiet current_store this_morning) in
  let interrupted :=
    transferExternal demo_cfg (demo_ext (Ok sig1)) alice carol_address 10
      (idle current_store this_morning
            [NoFault; NoFault; RunFault "disk I/O error"]) in
  fst settled
  = Ok (mkTransferResult false None None None
          (Some "cannot rollback - no transaction is active"))
  /\ map (fun r => (tx_id r, status r, tx_signature r))
         (transactions (db (snd settled)))
     = [(1, Failed, None); (2, Confirmed, Some sig1)]
  /\ map used_today (select_limit 7 (db (snd settled))) = [80%float]
  /\ fst interrupted
     = Ok (mkTransferResult false None None None (Some "disk I/O error"))
  /\ map (fun r => (tx_id r, status r, tx_signature r))
         (transactions (db (snd interrupted)))
     = [(1, Failed, None)]
  /\ map used_today (select_limit 7 (db (snd interrupted))) = [90%float].
Proof. vm_compute. repeat split. Qed.

(** * Further properties *)

(** ** Transfers that are declined *)

Lemma view_after_check cfg walletId d c row d1 day :
  getOrCreateSpendingLimit cfg walletId (quiet d c) = (Ok (Some row), quiet d1 c) ->
  view cfg day walletId d1
  = (fst (view cfg (today c) walletId d),
     if (today c =? day)%string then snd (view cfg (today c) walletId d)
     else 0%float).
Proof.
  intros Hget.
  destruct (getOrCreate_view cfg walletId d c)
    as (row' & d1' & Hrun & Hown & Hdate & Hview).
  rewrite Hget in Hrun. injection Hrun as <- <-.
  unfold view at 1. rewrite Hown, Hdate, <- Hview. reflexivity.
Qed.

(** X1. A transfer, internal or external, whose amount exceeds the remaining
    quota is answered with the limit message carrying the remaining quota;
    the world is left as the spending check left it and the ledger has no
    new row. *)
Theorem over_limit_transfer_declined
  cfg ext fromWallet toWallet toAddress amt d c rem pk3 :
  fst (checkSpendingAllowed cfg (w_id fromWallet) amt (quiet d c))
  = Ok (mkAllowance false rem) ->
  newPublicKey ext toAddress = Ok pk3 ->
  let checked := snd (checkSpendingAllowed cfg (w_id fromWallet) amt (quiet d c)) in
  transfer cfg ext fromWallet toWallet amt (quiet d c)
  = (Ok (over_limit ext rem), checked)
  /\ transferExternal cfg ext fromWallet toAddress amt (quiet d c)
     = (Ok (over_limit ext rem), checked)
  /\ transactions (db checked) = transactions d.
Proof.
  intros Hdenied Hpk3.
  destruct (checkSpendingAllowed_quiet cfg (w_id fromWallet) amt d c)
    as (row & d1 & Hchk & Hget & Hroll).
  rewrite Hchk in Hdenied. cbn [fst] in Hdenied.
  injection Hdenied as Hallow Hrem.
  rewrite Hchk. cbn [snd db].
  split; [|split].
  - unfold transfer. rewrite (bind_run _ _ _ Hchk). cbn [allowed].
    rewrite Hallow. cbn [negb]. unfold limit_exceeded. cbn [remaining].
    now rewrite Hrem.
  - unfold transferExternal. rewrite Hpk3, (bind_run _ _ _ Hchk). cbn [allowed].
    rewrite Hallow. cbn [negb]. unfold limit_exceeded. cbn [remaining].
    now rewrite Hrem.
  - apply Hroll.
Qed.

Lemma over_limit_transfer_declined_witness :
  transfer demo_cfg (demo_ext (Ok sig1)) alice bob 25
           (quiet current_store this_morning)
  = (Ok (mkTransferResult false None None None
           (Some "Daily spending limit exceeded. Remaining: $20.00")),
     quiet current_store this_morning)
  /\ transferExternal demo_cfg (demo_ext (Ok sig1)) alice carol_address 25
                      (quiet current_store this_morning)
     = (Ok (mkTransferResult false None None None
              (Some "Daily spending limit exceeded. Remaining: $20.00")),
        quiet current_store this_morning)
  /\ transactions current_store = transactions current_store.
Proof.
  apply (over_limit_transfer_declined demo_cfg (demo_ext (Ok sig1)) alice bob
           carol_address 25 current_store this_morning 20 carol_address);
    reflexivity.
Defined.








(** ** Transfers that settle *)

(** X5. An external transfer that settles confirms the very row it created
    as pending: the ledger gains exactly one row, confirmed, without fee,
    carrying the settlement reference and the external address.  The spend
    recorded is the amount, on top of what the limits service reported
    before when the settlement resumed on the day of the check, on top of
    zero otherwise; the cap is not changed. *)
Theorem external_transfer_confirms_its_row
  cfg ext fromWallet toAddress amt d c rem pk kp pk3 sig :
  fst (checkSpendingAllowed cfg (w_id fromWallet) amt (quiet d c))
  = Ok (mkAllowance true rem) ->
  newPublicKey ext (public_key fromWallet) = Ok pk ->
  hasEnoughUsdc ext pk amt = Ok true ->
  keypairFromBase58 ext (encrypted_secret_key fromWallet) = Ok kp ->
  newPublicKey ext toAddress = Ok pk3 ->
  transferUsdc ext kp pk3 amt = Ok sig ->
  sig <> "" ->
  toAddress <> "" ->
  exists before q row d',
    fst (getLimitStatus cfg (w_id fromWallet) (quiet d c)) = Ok before
    /\ transferExternal cfg ext fromWallet toAddress amt (quiet d c)
       = (Ok (mkTransferResult true (Some q) (Some sig)
                (Some (getExplorerUrl sig (SOLANA_NETWORK cfg))) None),
          quiet d' (settle_resume ext))
    /\ transactions d' = transactions d ++ [q]
    /\ tx_id q = next_id (map tx_id (transactions d))
    /\ from_wallet_id q = w_id fromWallet
    /\ amount q = amt
    /\ status q = Confirmed
    /\ tx_signature q = Some sig
    /\ to_external_address q = Some toAddress
    /\ to_wallet_id q = None
    /\ fee q = 0%float
    /\ error_message q = None
    /\ created_at q = timestamp (balance_resume ext)
    /\ confirmed_at q = Some (timestamp (settle_resume ext))
    /\ hd_error (select_limit (w_id fromWallet) d') = Some row
    /\ daily_limit row = dailyLimit before
    /\ used_today row = (carried_over ext c (usedToday before) + amt)%float.
Proof.
  intros Hallowed Hpk Hbal Hkp Hpk3 Hsig Hne Haddr.
  pose proof (allowed_amount_is_number _ _ _ _ _ Hallowed) as Hnum.
  destruct (checkSpendingAllowed_quiet cfg (w_id fromWallet) amt d c)
    as (row0 & d1 & Hchk & Hget & Hroll).
  rewrite Hchk in Hallowed. cbn [fst] in Hallowed.
  injection Hallowed as Hallow Hrem.
  assert (Ht1 : transactions d1 = transactions d) by apply Hroll.
  set (p := new_transaction (w_id fromWallet) amt Transfer
              (external_options toAddress) (balance_resume ext) (transactions d1)).
  set (d2 := insert_transaction (w_id fromWallet) amt Transfer
               (external_options toAddress) (balance_resume ext) d1).
  destruct (recordSpending_quiet cfg (w_id fromWallet) amt d2 (settle_resume ext))
    as (row & d3 & Hrec & Hown & Hdate & Hlimit & Hused).
  destruct (recordSpending_frame cfg (w_id fromWallet) amt d2 (settle_resume ext))
    as (_ & _ & Ht3 & _).
  rewrite Hrec in Ht3. cbn [snd db] in Ht3.
  assert (Ht2 : transactions d2 = transactions d1 ++ [p]) by reflexivity.
  assert (Hfresh : forall r, In r (transactions d1) -> tx_id r < tx_id p)
    by (intros r Hr; now apply tx_id_below_next).
  set (f := set_status Confirmed (mkStatusOptions (Some sig) None) (settle_resume ext)).
  eexists; exists (f p), row; eexists.
  split; [apply getLimitStatus_view|].
  cbn [usedToday dailyLimit].
  split.
  { unfold transferExternal. rewrite Hpk3. run_checks Hchk Hallow Hpk Hbal Hnum.
    fold (external_options toAddress). fold p. fold d2.
    erewrite try_catch_ok; [reflexivity|].
    rewrite (bind_run _ _ _ (call_ok _ _ _ Hkp)),
            (bind_run _ _ _ (await_ok _ _ _ _ Hsig)).
    cbn [db faults begun].
    rewrite (bind_run _ _ _ Hrec).
    rewrite (bind_run _ _ _ (updateTransactionStatus_quiet _ _ _ _ _)).
    unfold select_transaction. rewrite Ht3, Ht2, (select_appended _ _ Hfresh).
    reflexivity. }
  cbn [transactions with_transactions].
  rewrite Ht3, Ht2, (update_appended _ _ _ Hfresh), Ht1.
  split; [reflexivity|].
  split; [unfold f, p; cbn; now rewrite Ht1|].
  split; [reflexivity|]. split; [reflexivity|]. split; [reflexivity|].
  split; [unfold f; cbn; destruct sig; [congruence|reflexivity]|].
  split; [unfold f; cbn; destruct toAddress; [congruence|reflexivity]|].
  repeat (split; [reflexivity|]).
  unfold select_limit in *. cbn [spending_limits with_transactions].
  split; [exact Hown|].
  assert (Hview : view cfg (today (settle_resume ext)) (w_id fromWallet) d2
                  = (fst (view cfg (today c) (w_id fromWallet) d),
                     carried_over ext c (snd (view cfg (today c) (w_id fromWallet) d)))).
  { rewrite (view_ext cfg _ _ d1 d2) by reflexivity.
    exact (view_after_check _ _ _ _ _ _ _ Hget). }
  rewrite Hview in Hlimit, Hused. split; assumption.
Qed.

Lemma external_transfer_confirms_its_row_witness :
  exists before q row d',
    fst (getLimitStatus demo_cfg 7 (quiet current_store this_morning)) = Ok before
    /\ transferExternal demo_cfg (demo_ext (Ok sig1)) alice carol_address 10
                        (quiet current_store this_morning)
       = (Ok (mkTransferResult true (Some q) (Some sig1)
                (Some (getExplorerUrl sig1 "devnet")) None),
          quiet d' this_evening)
    /\ transactions d' = transactions current_store ++ [q]
    /\ tx_id q = 1
    /\ from_wallet_id q = 7
    /\ amount q = 10%float
    /\ status q = Confirmed
    /\ tx_signature q = Some sig1
    /\ to_external_address q = Some carol_address
    /\ to_wallet_id q = None
    /\ fee q = 0%float
    /\ error_message q = None
    /\ created_at q = timestamp this_noon
    /\ confirmed_at q = Some (timestamp this_evening)
    /\ hd_error (select_limit 7 d') = Some row
    /\ daily_limit row = dailyLimit before
    /\ used_today row
       = (carried_over (demo_ext (Ok sig1)) this_morning (usedToday before) + 10)%float.
Proof.
  apply (external_transfer_confirms_its_row demo_cfg (demo_ext (Ok sig1)) alice
           carol_address 10 current_store this_morning 20
           (public_key alice) (encrypted_secret_key alice) carol_address sig1);
    try reflexivity; discriminate.
Defined.

(** X6. An internal transfer that settles is not debited.  When the
    settlement resumes on the day of the check, the transfer is answered as
    failed with SQLite's "cannot rollback - no transaction is active", the
    spending limits are exactly as the spending check left them, the limits
    service reports the same figures as before the transfer, and the same
    amount passes the spending check again. *)
Theorem settled_transfer_is_not_debited
  cfg ext fromWallet toWallet amt d c rem pk kp pk2 sig :
  fst (checkSpendingAllowed cfg (w_id fromWallet) amt (quiet d c))
  = Ok (mkAllowance true rem) ->
  newPublicKey ext (public_key fromWallet) = Ok pk ->
  hasEnoughUsdc ext pk amt = Ok true ->
  keypairFromBase58 ext (encrypted_secret_key fromWallet) = Ok kp ->
  newPublicKey ext (public_key toWallet) = Ok pk2 ->
  transferUsdc ext kp pk2 (amt - platform_fee cfg amt)%float = Ok sig ->
  today (settle_resume ext) = today c ->
  exists d',
    transfer cfg ext fromWallet toWallet amt (quiet d c)
    = (Ok (mkTransferResult false None None None
             (Some "cannot rollback - no transaction is active")),
       quiet d' (settle_resume ext))
    /\ spending_limits d'
       = spending_limits
           (db (snd (checkSpendingAllowed cfg (w_id fromWallet) amt (quiet d c))))
    /\ forall c1,
        today c1 = today c ->
        fst (getLimitStatus cfg (w_id fromWallet) (quiet d' c1))
        = fst (getLimitStatus cfg (w_id fromWallet) (quiet d c))
        /\ fst (checkSpendingAllowed cfg (w_id fromWallet) amt (quiet d' c1))
           = Ok (mkAllowance true rem).
Proof.
  intros Hallowed Hpk Hbal Hkp Hpk2 Hsig Hday.
  pose proof (allowed_amount_is_number _ _ _ _ _ Hallowed) as Hnum.
  pose proof (checkSpendingAllowed_view cfg (w_id fromWallet) amt d c) as Hv.
  rewrite Hallowed in Hv. cbv zeta in Hv.
  destruct (checkSpendingAllowed_quiet cfg (w_id fromWallet) amt d c)
    as (row & d1 & Hchk & Hget & Hroll).
  rewrite Hchk in Hallowed. cbn [fst] in Hallowed.
  injection Hallowed as Hallow Hrem.
  set (d2 := insert_transaction (w_id fromWallet) amt Transfer
               (internal_options toWallet (platform_fee cfg amt))
               (balance_resume ext) d1).
  destruct (executeTransfer_quiet cfg (w_id fromWallet) (w_id toWallet) amt sig
              (platform_fee cfg amt) d2 (settle_resume ext) Hnum)
    as (d3 & Hexec & _ & Hsl & _).
  assert (Hsame : spending_limits d3 = spending_limits d1).
  { rewrite Hsl. unfold limits_after_executeTransfer, select_limit.
    cbn [spending_limits d2 insert_transaction with_transactions].
    destruct Hroll as (_ & _ & _ & _ & _ & Hown & Hdate & _).
    unfold select_limit in Hown. rewrite Hown, Hdate, Hday.
    now rewrite String.eqb_refl. }
  eexists. split.
  { unfold transfer. run_checks Hchk Hallow Hpk Hbal Hnum.
    change (amt * (PLATFORM_FEE_PERCENT cfg / 100))%float with (platform_fee cfg amt).
    fold (internal_options toWallet (platform_fee cfg amt)). fold d2.
    erewrite try_catch_throw.
    2:{ rewrite (bind_run _ _ _ (call_ok _ _ _ Hkp)),
                (bind_run _ _ _ (call_ok _ _ _ Hpk2)),
                (bind_run _ _ _ (await_ok _ _ _ _ Hsig)).
        cbn [db faults begun]. apply bind_throw. exact Hexec. }
    cbn [message_of].
    rewrite (bind_run _ _ _ (updateTransactionStatus_quiet _ _ _ _ _)).
    reflexivity. }
  rewrite Hchk. cbn [snd db spending_limits with_transactions].
  split; [exact Hsame|].
  intros c1 Hc1.
  assert (Hview : view cfg (today c1) (w_id fromWallet)
                    (with_transactions
                       (update_where
                          (has_id (tx_id
                             (new_transaction (w_id fromWallet) amt Transfer
                                (internal_options toWallet (platform_fee cfg amt))
                                (balance_resume ext) (transactions d1))))
                          (set_status Failed
                             (mkStatusOptions None (Some no_transaction))
                             (settle_resume ext))) d3)
                  = view cfg (today c) (w_id fromWallet) d).
  { rewrite (view_ext cfg _ _ d1) by exact Hsame.
    exact (rollover_keeps_view _ _ _ _ _ _ _ Hget Hc1). }
  split.
  - rewrite !getLimitStatus_view. now rewrite Hview, Hc1.
  - rewrite checkSpendingAllowed_view. cbv zeta. rewrite Hview. exact (eq_sym Hv).
Qed.

Lemma settled_transfer_is_not_debited_witness :
  exists d',
    transfer demo_cfg (demo_ext (Ok sig1)) alice bob 20
             (quiet current_store this_morning)
    = (Ok (mkTransferResult false None None None
             (Some "cannot rollback - no transaction is active")),
       quiet d' this_evening)
    /\ spending_limits d' = spending_limits current_store
    /\ forall c1,
        today c1 = today this_morning ->
        fst (getLimitStatus demo_cfg 7 (quiet d' c1))
        = fst (getLimitStatus demo_cfg 7 (quiet current_store this_morning))
        /\ fst (checkSpendingAllowed demo_cfg 7 20 (quiet d' c1))
           = Ok (mkAllowance true 20).
Proof.
  apply (settled_transfer_is_not_debited demo_cfg (demo_ext (Ok sig1)) alice bob 20
           current_store this_morning 20 (public_key alice)
           (encrypted_secret_key alice) (public_key bob) sig1);
    reflexivity.
Defined.

(** ** The unit of work, seen from the caller *)

(** X7. [executeTransfer] never completes its unit of work.  Called outside
    a transaction with an amount that is a number, no write failing, it
    throws SQLite's "cannot rollback - no transaction is active" and leaves
    the confirmed row in the ledger.  Of the spend: it is lost when the
    wallet's row carries today's date; it is added to the stale counter,
    whose rollover is lost, when the row is stale; it is recorded nowhere
    when the wallet has no row.  Rows of other wallets and the other tables
    are untouched. *)
Theorem executeTransfer_never_commits
  cfg fromWalletId toWalletId_ amt signature_ fee_ d c :
  is_nan amt = false ->
  exists q d',
    executeTransfer cfg fromWalletId toWalletId_ amt signature_ fee_ (quiet d c)
    = (Throw (JsError "cannot rollback - no transaction is active"), quiet d' c)
    /\ transactions d' = transactions d ++ [q]
    /\ tx_id q = next_id (map tx_id (transactions d))
    /\ from_wallet_id q = fromWalletId
    /\ amount q = amt
    /\ status q = Confirmed
    /\ confirmed_at q = Some (timestamp c)
    /\ (signature_ <> "" -> tx_signature q = Some signature_)
    /\ users d' = users d
    /\ wallets d' = wallets d
    /\ withdrawal_requests d' = withdrawal_requests d
    /\ (forall other, other <> fromWalletId ->
          select_limit other d' = select_limit other d)
    /\ match hd_error (select_limit fromWalletId d) with
       | Some r =>
           if (reset_date r =? today c)%string
           then spending_limits d' = spending_limits d
           else exists row,
                  hd_error (select_limit fromWalletId d') = Some row
                  /\ used_today row = (used_today r + (amt + fee_))%float
                  /\ reset_date row = reset_date r
                  /\ daily_limit row = daily_limit r
       | None => spending_limits d' = spending_limits d
       end.
Proof.
  intros Hnum.
  destruct (executeTransfer_quiet cfg fromWalletId toWalletId_ amt signature_ fee_
              d c Hnum)
    as (d' & Hrun & Htx & Hsl & Hu & Hw & Hwr).
  eexists; exists d'. split; [exact Hrun|]. split; [exact Htx|].
  repeat (split; [reflexivity|]).
  split.
  { intros Hne. unfold settled_row, settled_options. cbn.
    destruct signature_; [congruence|reflexivity]. }
  repeat (split; [assumption|]).
  unfold limits_after_executeTransfer in Hsl.
  split.
  - intros other Hne. unfold select_limit. rewrite Hsl.
    destruct (hd_error (select_limit fromWalletId d)) as [r|]; [|reflexivity].
    destruct (reset_date r =? today c)%string; [reflexivity|].
    apply select_other_after_update; [reflexivity|].
    intros x Hx. unfold is_wallet. apply Z.eqb_eq in Hx. apply Z.eqb_neq. lia.
  - destruct (hd_error (select_limit fromWalletId d)) as [r|] eqn:Hr;
      [|exact Hsl].
    destruct (reset_date r =? today c)%string; [exact Hsl|].
    exists (add_spending (amt + fee_) c r).
    split; [|repeat split].
    unfold select_limit in *. rewrite Hsl. unfold is_wallet.
    rewrite (select_after_update (fun x => wallet_id x =? fromWalletId))
      by reflexivity.
    now rewrite Hr.
Qed.

Lemma executeTransfer_never_commits_witness :
  exists q d',
    executeTransfer demo_cfg 7 9 10 sig1 0.1 (quiet stale_store this_morning)
    = (Throw (JsError "cannot rollback - no transaction is active"),
       quiet d' this_morning)
    /\ transactions d' = transactions stale_store ++ [q]
    /\ status q = Confirmed
    /\ tx_signature q = Some sig1
    /\ exists row,
         hd_error (select_limit 7 d') = Some row
         /\ used_today row = (80 + (10 + 0.1))%float
         /\ reset_date row = "2025-03-13".
Proof.
  destruct (executeTransfer_never_commits demo_cfg 7 9 10 sig1 0.1 stale_store
              this_morning eq_refl)
    as (q & d' & Hrun & Htx & _ & _ & _ & Hst & _ & Hsig & _ & _ & _ & _ & Hrow).
  exists q, d'. split; [exact Hrun|]. split; [exact Htx|]. split; [exact Hst|].
  split; [apply Hsig; discriminate|].
  destruct Hrow as (row & Hown & Hused & Hdate & _).
  exists row. now repeat split.
Defined.

(** ** What the operations keep *)

Lemma holds_in_idle (I : Db -> Prop) d c fs : I d -> holds_in I (idle d c fs).
Proof. intros H. split; [exact H|]. intros snapshot Hs. discriminate Hs. Qed.

Lemma preserves_ret I {A} (a : A) : preserves I (ret a).
Proof. intros w H. exact H. Qed.

Lemma preserves_throw I {A} e : preserves I (@throw A e).
Proof. intros w H. exact H. Qed.

Lemma preserves_query I {A} (sel : Db -> list A) : preserves I (query sel).
Proof. intros w H. exact H. Qed.

Lemma preserves_current_date I : preserves I current_date.
Proof. intros w H. exact H. Qed.

Lemma preserves_resume_at I c : preserves I (resume_at c).
Proof. intros w H. exact H. Qed.

Lemma preserves_call I {A} (o : Outcome A) : preserves I (call o).
Proof. intros w H. exact H. Qed.

(** Exporting the connection leaves the rows, or those of BEGIN. *)
Lemma holds_in_reopened (I : Db -> Prop) d c fs b :
  I d -> (forall snapshot, b = Some snapshot -> I snapshot) ->
  holds_in I (reopened (mkWorld d c fs b)).
Proof.
  intros Hd Hb. unfold reopened. cbn [begun].
  destruct b as [snapshot|]; split; cbn [db begun]; auto; discriminate.
Qed.

(** One write, where the statement is known to keep [I] on the rows at
    hand. *)
Lemma holds_in_execute (I : Db -> Prop) stmt w :
  holds_in I w -> I (stmt (clock w) (db w)) ->
  holds_in I (snd (execute stmt w)).
Proof.
  destruct w as [d c fs b]. intros [Hdb Hsnap] Hstmt.
  cbn [db clock begun] in *. unfold execute, next_fault. cbn [faults db clock begun].
  destruct fs as [|[|m|m] fs]; cbn [snd];
    first [ now apply holds_in_reopened | now split ].
Qed.

Lemma preserves_execute (I : Db -> Prop) stmt :
  (forall c d, I d -> I (stmt c d)) -> preserves I (execute stmt).
Proof.
  intros Hstmt w H. apply holds_in_execute; [exact H|].
  apply Hstmt. exact (proj1 H).
Qed.

Lemma preserves_bind I {A B} (m : M A) (k : A -> M B) :
  preserves I m -> (forall a, preserves I (k a)) -> preserves I (bind m k).
Proof.
  intros Hm Hk w H. specialize (Hm w H). unfold bind.
  destruct (m w) as [[a|e] w1]; cbn [snd] in *; [now apply Hk|exact Hm].
Qed.

Lemma preserves_try_catch I {A} (m : M A) h :
  preserves I m -> (forall e, preserves I (h e)) -> preserves I (try_catch m h).
Proof.
  intros Hm Hh w H. specialize (Hm w H). unfold try_catch.
  destruct (m w) as [[a|e] w1]; cbn [snd] in *; [exact Hm|now apply Hh].
Qed.

Lemma preserves_begin I : preserves I begin_transaction.
Proof.
  intros w H. unfold begin_transaction.
  destruct (begun w) eqn:Hb; cbn [snd]; [exact H|].
  split; cbn [db begun]; [exact (proj1 H)|].
  intros s Hs. injection Hs as <-. exact (proj1 H).
Qed.

Lemma preserves_commit I : preserves I commit.
Proof.
  intros w H. unfold commit.
  destruct (begun w) eqn:Hb; cbn [snd]; [|exact H].
  split; cbn [db begun]; [exact (proj1 H)|discriminate].
Qed.

Lemma preserves_rollback I : preserves I rollback.
Proof.
  intros w H. unfold rollback.
  destruct (begun w) as [s|] eqn:Hb; cbn [snd]; [|exact H].
  split; cbn [db begun]; [exact (proj2 H s Hb)|discriminate].
Qed.

Lemma preserves_saveDb I : preserves I saveDb.
Proof.
  intros [d c fs b] [Hdb Hsnap]. unfold saveDb. cbn [snd].
  now apply holds_in_reopened.
Qed.

Lemma preserves_runTransaction I {A} (fn : M A) :
  preserves I fn -> preserves I (runTransaction fn).
Proof.
  intros Hfn. unfold runTransaction.
  apply preserves_bind; [apply preserves_begin|]. intros _.
  apply preserves_try_catch.
  - apply preserves_bind; [exact Hfn|]. intros result.
    apply preserves_bind; [apply preserves_commit|]. intros _.
    apply preserves_bind; [apply preserves_saveDb|]. intros _.
    apply preserves_ret.
  - intros e. apply preserves_bind; [apply preserves_rollback|]. intros _.
    apply preserves_throw.
Qed.

Lemma preserves_await I {A} (o : Outcome A) c : preserves I (await o c).
Proof.
  unfold await. apply preserves_bind; [apply preserves_resume_at|].
  intros _. apply preserves_call.
Qed.

(** Composite computations: every write is left as a goal on its statement. *)
Ltac preserving :=
  repeat first
    [ apply preserves_ret | apply preserves_throw | apply preserves_query
    | apply preserves_current_date | apply preserves_resume_at
    | apply preserves_call | apply preserves_await
    | apply preserves_bind | apply preserves_try_catch
    | apply preserves_runTransaction | apply preserves_execute
    | match goal with
      | |- forall _, preserves _ _ => intro
      | |- preserves _ (match ?x with _ => _ end) => destruct x
      | |- preserves _ (if ?b then _ else _) => destruct b
      end ].

Section LedgerInvariant.
(** A property of the store kept by each kind of write the ledger and the
    spending-limit tracker perform. *)
Variable I : Db -> Prop.
Hypothesis I_getOrCreate :
  forall cfg walletId, preserves I (getOrCreateSpendingLimit cfg walletId).
Hypothesis I_limits_update :
  forall p f d, (forall r, wallet_id (f r) = wallet_id r) ->
                I d -> I (with_spending_limits (update_where p f) d).
Hypothesis I_ledger_update :
  forall p f d, (forall r, tx_id (f r) = tx_id r) ->
                I d -> I (with_transactions (update_where p f) d).
Hypothesis I_ledger_insert :
  forall fromWalletId amt txType options c d,
    I d -> I (insert_transaction fromWalletId amt txType options c d).

Ltac ledger_writes :=
  preserving;
  try (intros ? ? ?;
       first [ now apply I_limits_update
             | now apply I_ledger_update
             | now apply I_ledger_insert ]).

Lemma inv_recordSpending cfg walletId amt :
  preserves I (recordSpending cfg walletId amt).
Proof.
  unfold recordSpending, queryOne.
  apply preserves_bind; [apply I_getOrCreate|]. ledger_writes.
Qed.

Lemma inv_checkSpendingAllowed cfg walletId amt :
  preserves I (checkSpendingAllowed cfg walletId amt).
Proof.
  unfold checkSpendingAllowed.
  apply preserves_bind; [apply I_getOrCreate|]. ledger_writes.
Qed.

Lemma inv_updateSpendingLimit cfg walletId newLimit :
  preserves I (updateSpendingLimit cfg walletId newLimit).
Proof.
  unfold updateSpendingLimit, queryOne.
  apply preserves_bind; [ledger_writes|]. intros existing.
  apply preserves_bind; [|ledger_writes].
  destruct existing; [ledger_writes|].
  apply preserves_bind; [apply I_getOrCreate|]. ledger_writes.
Qed.

Lemma inv_setLimit cfg walletId newLimit :
  preserves I (setLimit cfg walletId newLimit).
Proof.
  unfold setLimit. destruct (newLimit <? 0)%float; [ledger_writes|].
  apply preserves_bind; [apply inv_updateSpendingLimit|]. ledger_writes.
Qed.

Lemma inv_createTransaction fromWalletId amt txType options :
  preserves I (createTransaction fromWalletId amt txType options).
Proof. unfold createTransaction. ledger_writes. Qed.

Lemma inv_updateTransactionStatus id st options :
  preserves I (updateTransactionStatus id st options).
Proof. unfold updateTransactionStatus, queryOne. ledger_writes. Qed.

Lemma inv_executeTransfer cfg fromWalletId toWalletId_ amt signature_ fee_ :
  preserves I (executeTransfer cfg fromWalletId toWalletId_ amt signature_ fee_).
Proof.
  unfold executeTransfer. apply preserves_runTransaction.
  apply preserves_bind; [apply inv_recordSpending|]. intros _.
  apply preserves_bind; [apply inv_createTransaction|]. intros tx.
  apply inv_updateTransactionStatus.
Qed.

Lemma inv_transfer cfg ext fromWallet toWallet amt :
  preserves I (transfer cfg ext fromWallet toWallet amt).
Proof.
  unfold transfer.
  apply preserves_bind; [apply inv_checkSpendingAllowed|]. intros chk.
  destruct (negb (allowed chk)); [ledger_writes|].
  apply preserves_bind; [ledger_writes|]. intros pk.
  apply preserves_bind; [ledger_writes|]. intros [|]; [|ledger_writes].
  cbn [negb].
  apply preserves_bind; [apply inv_createTransaction|]. intros pendingTx.
  apply preserves_try_catch.
  - apply preserves_bind; [ledger_writes|]. intros kp.
    apply preserves_bind; [ledger_writes|]. intros pk2.
    apply preserves_bind; [ledger_writes|]. intros sig.
    apply preserves_bind; [apply inv_executeTransfer|]. ledger_writes.
  - intros e.
    apply preserves_bind; [apply inv_updateTransactionStatus|]. ledger_writes.
Qed.

Lemma inv_transferExternal cfg ext fromWallet toAddress amt :
  preserves I (transferExternal cfg ext fromWallet toAddress amt).
Proof.
  unfold transferExternal.
  destruct (newPublicKey ext toAddress) as [pk3|e]; [|ledger_writes].
  apply preserves_bind; [apply inv_checkSpendingAllowed|]. intros chk.
  destruct (negb (allowed chk)); [ledger_writes|].
  apply preserves_bind; [ledger_writes|]. intros pk.
  apply preserves_bind; [ledger_writes|]. intros [|]; [|ledger_writes].
  cbn [negb].
  apply preserves_bind; [apply inv_createTransaction|]. intros pendingTx.
  apply preserves_try_catch.
  - apply preserves_bind; [ledger_writes|]. intros kp.
    apply preserves_bind; [ledger_writes|]. intros sig.
    apply preserves_bind; [apply inv_recordSpending|]. intros _.
    apply preserves_bind; [apply inv_updateTransactionStatus|]. ledger_writes.
  - intros e.
    apply preserves_bind; [apply inv_updateTransactionStatus|]. ledger_writes.
Qed.
End LedgerInvariant.

Section WithdrawalInvariant.
(** A property of the store kept by each kind of write the withdrawal
    service performs. *)
Variable I : Db -> Prop.
Hypothesis I_requests_update :
  forall p f d, (forall r, wr_id (f r) = wr_id r) ->
                I d -> I (with_withdrawal_requests (update_where p f) d).
Hypothesis I_requests_insert :
  forall userId walletId amountUsdc amountFiat c d,
    I d ->
    I (with_withdrawal_requests
         (fun rows => rows ++ [new_request userId walletId amountUsdc
                                           amountFiat c rows]) d).

Lemma inv_initiateWithdrawal host userId walletId amountUsdc :
  preserves I (initiateWithdrawal host userId walletId amountUsdc).
Proof.
  unfold initiateWithdrawal, queryOne.
  preserving; intros ? ? ?;
    first [now apply I_requests_update | now apply I_requests_insert].
Qed.

Lemma inv_completeWithdrawal requestId :
  preserves I (completeWithdrawal requestId).
Proof.
  unfold completeWithdrawal, queryOne.
  preserving; intros ? ? ?; now apply I_requests_update.
Qed.
End WithdrawalInvariant.

Section TableFrames.
(** Properties of the store that a write to one table cannot change. *)
Variable I : Db -> Prop.

Lemma frame_getOrCreate cfg walletId :
  (forall f d, I d -> I (with_spending_limits f d)) ->
  preserves I (getOrCreateSpendingLimit cfg walletId).
Proof.
  intros HI. unfold getOrCreateSpendingLimit, queryOne.
  preserving; intros ? ? ?; now apply HI.
Qed.

Lemma frame_createUser telegramId username :
  (forall f d, I d -> I (with_users f d)) ->
  preserves I (createUser telegramId username).
Proof.
  intros HI. unfold createUser, queryOne.
  preserving; intros ? ? ?; now apply HI.
Qed.
End TableFrames.

(** X8. Under every fault plan and whatever the collaborators answer, each
    service writes only its own tables: transfers and [setLimit] leave the
    users, the wallets and the withdrawal requests as they were ([setLimit]
    the ledger too); the withdrawal service leaves the users, the wallets,
    the ledger and the spending limits as they were; [createUser] leaves
    everything but the users as it was. *)
Theorem services_write_their_own_tables d c fs :
  let w := idle d c fs in
  (forall cfg ext fromWallet toWallet toAddress amt,
      let t := db (snd (transfer cfg ext fromWallet toWallet amt w)) in
      let x := db (snd (transferExternal cfg ext fromWallet toAddress amt w)) in
      (users t = users d /\ wallets t = wallets d
       /\ withdrawal_requests t = withdrawal_requests d)
      /\ (users x = users d /\ wallets x = wallets d
          /\ withdrawal_requests x = withdrawal_requests d))
  /\ (forall cfg walletId newLimit,
      let s := db (snd (setLimit cfg walletId newLimit w)) in
      users s = users d /\ wallets s = wallets d
      /\ transactions s = transactions d
      /\ withdrawal_requests s = withdrawal_requests d)
  /\ (forall host userId walletId amountUsdc requestId,
      let i := db (snd (initiateWithdrawal host userId walletId amountUsdc w)) in
      let k := db (snd (completeWithdrawal requestId w)) in
      (users i = users d /\ wallets i = wallets d
       /\ transactions i = transactions d
       /\ spending_limits i = spending_limits d)
      /\ (users k = users d /\ wallets k = wallets d
          /\ transactions k = transactions d
          /\ spending_limits k = spending_limits d))
  /\ (forall telegramId username,
      let u := db (snd (createUser telegramId username w)) in
      wallets u = wallets d
      /\ transactions u = transactions d
      /\ spending_limits u = spending_limits d
      /\ withdrawal_requests u = withdrawal_requests d).
Proof.
  cbv zeta. split; [|split; [|split]].
  - intros cfg ext fromWallet toWallet toAddress amt. split.
    + apply (inv_transfer
               (fun d' => users d' = users d /\ wallets d' = wallets d
                          /\ withdrawal_requests d' = withdrawal_requests d));
        try (intros; apply frame_getOrCreate); auto.
      apply holds_in_idle. auto.
    + apply (inv_transferExternal
               (fun d' => users d' = users d /\ wallets d' = wallets d
                          /\ withdrawal_requests d' = withdrawal_requests d));
        try (intros; apply frame_getOrCreate); auto.
      apply holds_in_idle. auto.
  - intros cfg walletId newLimit.
    apply (inv_setLimit
             (fun d' => users d' = users d /\ wallets d' = wallets d
                        /\ transactions d' = transactions d
                        /\ withdrawal_requests d' = withdrawal_requests d));
      try (intros; apply frame_getOrCreate); auto.
    apply holds_in_idle. auto.
  - intros host userId walletId amountUsdc requestId. split.
    + apply (inv_initiateWithdrawal
               (fun d' => users d' = users d /\ wallets d' = wallets d
                          /\ transactions d' = transactions d
                          /\ spending_limits d' = spending_limits d));
        auto.
      apply holds_in_idle. auto.
    + apply (inv_completeWithdrawal
               (fun d' => users d' = users d /\ wallets d' = wallets d
                          /\ transactions d' = transactions d
                          /\ spending_limits d' = spending_limits d));
        auto.
      apply holds_in_idle. auto.
  - intros telegramId username.
    apply (frame_createUser
             (fun d' => wallets d' = wallets d
                        /\ transactions d' = transactions d
                        /\ spending_limits d' = spending_limits d
                        /\ withdrawal_requests d' = withdrawal_requests d));
      auto.
    apply holds_in_idle. auto.
Qed.

(** ** Unique keys *)

Lemma map_key_update {R K} (key : R -> K) (p : R -> bool) (f : R -> R) rows :
  (forall r, key (f r) = key r) ->
  map key (update_where p f rows) = map key rows.
Proof.
  intros Hf. unfold update_where. rewrite map_map. apply map_ext.
  intros r. destruct (p r); [apply Hf|reflexivity].
Qed.

Lemma NoDup_snoc {K} (keys : list K) k :
  NoDup keys -> ~ In k keys -> NoDup (keys ++ [k]).
Proof.
  intros Hnd Hk. apply NoDup_app; [exact Hnd|repeat constructor; intros []|].
  intros a Ha [<-|[]]. now apply Hk.
Qed.

Lemma next_id_fresh ids : ~ In (next_id ids) ids.
Proof. intros H. apply next_id_above in H. lia. Qed.

Lemma absent_key {R} (p : R -> bool) rows :
  hd_error (filter p rows) = None -> forall r, In r rows -> p r = false.
Proof.
  intros Hnone r Hr. destruct (p r) eqn:Hp; [|reflexivity].
  assert (Hin : In r (filter p rows)) by (apply filter_In; now split).
  destruct (filter p rows); [destruct Hin|discriminate].
Qed.

Section Keyed.
Variable d : Db.
Hypothesis Hd : keyed d.

Lemma keyed_limits_update p f :
  (forall r, wallet_id (f r) = wallet_id r) ->
  keyed (with_spending_limits (update_where p f) d).
Proof.
  intros Hf. destruct Hd as (Hl & Ht & Hw & Hu).
  repeat split; try assumption. cbn. now rewrite map_key_update.
Qed.

Lemma keyed_limits_insert walletId row :
  hd_error (select_limit walletId d) = None ->
  wallet_id row = walletId ->
  keyed (with_spending_limits (fun rows => rows ++ [row]) d).
Proof.
  intros Hnone Hrow. destruct Hd as (Hl & Ht & Hw & Hu).
  repeat split; try assumption. cbn. rewrite map_app. cbn.
  apply NoDup_snoc; [exact Hl|]. intros Hin.
  apply in_map_iff in Hin. destruct Hin as (r & Hr & Hin).
  pose proof (absent_key _ _ Hnone r Hin) as Hfalse. cbn in Hfalse.
  apply Z.eqb_neq in Hfalse. congruence.
Qed.

Lemma keyed_ledger_update p f :
  (forall r, tx_id (f r) = tx_id r) ->
  keyed (with_transactions (update_where p f) d).
Proof.
  intros Hf. destruct Hd as (Hl & Ht & Hw & Hu).
  repeat split; try assumption. cbn. now rewrite map_key_update.
Qed.

Lemma keyed_ledger_insert fromWalletId amt txType options c :
  keyed (insert_transaction fromWalletId amt txType options c d).
Proof.
  destruct Hd as (Hl & Ht & Hw & Hu).
  repeat split; try assumption. cbn. rewrite map_app. cbn.
  apply NoDup_snoc; [exact Ht|apply next_id_fresh].
Qed.

Lemma keyed_requests_update p f :
  (forall r, wr_id (f r) = wr_id r) ->
  keyed (with_withdrawal_requests (update_where p f) d).
Proof.
  intros Hf. destruct Hd as (Hl & Ht & Hw & Hu).
  repeat split; try assumption. cbn. now rewrite map_key_update.
Qed.

Lemma keyed_requests_insert userId walletId amountUsdc amountFiat c :
  keyed (with_withdrawal_requests
           (fun rows => rows ++ [new_request userId walletId amountUsdc
                                             amountFiat c rows]) d).
Proof.
  destruct Hd as (Hl & Ht & Hw & Hu).
  repeat split; try assumption. cbn. rewrite map_app. cbn.
  apply NoDup_snoc; [exact Hw|apply next_id_fresh].
Qed.

Lemma keyed_users_update p f :
  (forall u, telegram_id (f u) = telegram_id u) ->
  keyed (with_users (update_where p f) d).
Proof.
  intros Hf. destruct Hd as (Hl & Ht & Hw & Hu).
  repeat split; try assumption. cbn. now rewrite map_key_update.
Qed.

Lemma keyed_users_insert telegramId row :
  hd_error (select_user telegramId d) = None ->
  telegram_id row = telegramId ->
  keyed (with_users (fun rows => rows ++ [row]) d).
Proof.
  intros Hnone Hrow. destruct Hd as (Hl & Ht & Hw & Hu).
  repeat split; try assumption. cbn. rewrite map_app. cbn.
  apply NoDup_snoc; [exact Hu|]. intros Hin.
  apply in_map_iff in Hin. destruct Hin as (r & Hr & Hin).
  pose proof (absent_key _ _ Hnone r Hin) as Hfalse. cbn in Hfalse.
  apply String.eqb_neq in Hfalse. congruence.
Qed.
End Keyed.

(** A write followed by reads only. *)
Lemma holds_in_execute_then {B} (I : Db -> Prop) stmt (k : M B) w :
  preserves I k -> holds_in I w -> I (stmt (clock w) (db w)) ->
  holds_in I (snd ((execute stmt ;; k) w)).
Proof.
  intros Hk Hw Hstmt. pose proof (holds_in_execute I stmt w Hw Hstmt) as H.
  unfold bind. destruct (execute stmt w) as [[u|e] w1]; cbn [snd] in *;
    [now apply Hk|exact H].
Qed.

Lemma keyed_getOrCreate cfg walletId :
  preserves keyed (getOrCreateSpendingLimit cfg walletId).
Proof.
  intros w Hw. unfold getOrCreateSpendingLimit.
  rewrite (bind_run _ _ _ (queryOne_run _ _)).
  destruct (hd_error (select_limit walletId (db w))) as [r|] eqn:Hsel.
  - revert w Hw Hsel.
    refine (fun w Hw _ => (_ : preserves keyed _) w Hw).
    unfold queryOne. preserving.
    intros c d Hd. now apply keyed_limits_update.
  - unfold bind at 1, current_date.
    apply holds_in_execute_then; [unfold queryOne; preserving|exact Hw|].
    apply keyed_limits_insert with (walletId := walletId);
      [exact (proj1 Hw)|exact Hsel|reflexivity].
Qed.

Lemma keyed_createUser telegramId username :
  preserves keyed (createUser telegramId username).
Proof.
  intros w Hw. unfold createUser.
  rewrite (bind_run _ _ _ (queryOne_run _ _)).
  destruct (hd_error (select_user telegramId (db w))) as [u|] eqn:Hsel.
  - revert w Hw Hsel.
    refine (fun w Hw _ => (_ : preserves keyed _) w Hw).
    unfold queryOne. preserving.
    intros c d Hd. now apply keyed_users_update.
  - apply holds_in_execute_then; [unfold queryOne; preserving|exact Hw|].
    apply keyed_users_insert with (telegramId := telegramId);
      [exact (proj1 Hw)|exact Hsel|reflexivity].
Qed.

(** X9. The keys the schema declares unique stay unique, under every fault
    plan and whatever the collaborators answer: no operation of the engine
    ever gives a wallet a second spending-limit row, reuses a transaction or
    withdrawal-request id, or registers a telegram id twice. *)
Theorem unique_keys_are_kept :
  (forall cfg ext fromWallet toWallet amt,
      preserves keyed (transfer cfg ext fromWallet toWallet amt))
  /\ (forall cfg ext fromWallet toAddress amt,
      preserves keyed (transferExternal cfg ext fromWallet toAddress amt))
  /\ (forall cfg fromWalletId toWalletId_ amt signature_ fee_,
      preserves keyed
        (executeTransfer cfg fromWalletId toWalletId_ amt signature_ fee_))
  /\ (forall cfg walletId amt, preserves keyed (recordSpending cfg walletId amt))
  /\ (forall cfg walletId amt,
      preserves keyed (checkSpendingAllowed cfg walletId amt))
  /\ (forall cfg walletId newLimit, preserves keyed (setLimit cfg walletId newLimit))
  /\ (forall telegramId username, preserves keyed (createUser telegramId username))
  /\ (forall host userId walletId amountUsdc,
      preserves keyed (initiateWithdrawal host userId walletId amountUsdc))
  /\ (forall requestId, preserves keyed (completeWithdrawal requestId)).
Proof.
  assert (Hg := keyed_getOrCreate).
  assert (Hlu : forall p f d, (forall r, wallet_id (f r) = wallet_id r) ->
                  keyed d -> keyed (with_spending_limits (update_where p f) d))
    by (intros; now apply keyed_limits_update).
  assert (Htu : forall p f d, (forall r, tx_id (f r) = tx_id r) ->
                  keyed d -> keyed (with_transactions (update_where p f) d))
    by (intros; now apply keyed_ledger_update).
  assert (Hti : forall a b t o c d,
                  keyed d -> keyed (insert_transaction a b t o c d))
    by (intros; now apply keyed_ledger_insert).
  assert (Hru : forall p f d, (forall r, wr_id (f r) = wr_id r) ->
                  keyed d -> keyed (with_withdrawal_requests (update_where p f) d))
    by (intros; now apply keyed_requests_update).
  assert (Hri : forall u wl a b c d,
                  keyed d ->
                  keyed (with_withdrawal_requests
                           (fun rows => rows ++ [new_request u wl a b c rows]) d))
    by (intros; now apply keyed_requests_insert).
  split; [intros; now apply inv_transfer|].
  split; [intros; now apply inv_transferExternal|].
  split; [intros; now apply inv_executeTransfer|].
  split; [intros; now apply inv_recordSpending|].
  split; [intros; now apply inv_checkSpendingAllowed|].
  split; [intros; now apply inv_setLimit|].
  split; [intros; apply keyed_createUser|].
  split; [intros; now apply inv_initiateWithdrawal|].
  intros; now apply inv_completeWithdrawal.
Qed.

Lemma unique_keys_are_kept_witness :
  keyed (db (snd (transfer demo_cfg (demo_ext (Ok sig1)) alice bob 10
                           (idle ledger_store this_morning
                                 [NoFault; SaveFault "disk full"])))).
Proof.
  destruct unique_keys_are_kept as (Htransfer & _).
  apply Htransfer. apply holds_in_idle. unfold keyed. cbn.
  repeat split; repeat constructor; cbn; intuition discriminate.
Defined.

(** ** Setting the cap *)

Lemma updateSpendingLimit_quiet cfg walletId newLimit d c :
  exists row d',
    updateSpendingLimit cfg walletId newLimit (quiet d c)
    = (Ok (Some row), quiet d' c)
    /\ hd_error (select_limit walletId d') = Some row
    /\ daily_limit row = newLimit
    /\ match hd_error (select_limit walletId d) with
       | Some r => used_today row = used_today r /\ reset_date row = reset_date r
       | None => used_today row = 0%float /\ reset_date row = today c
       end.
Proof.
  unfold updateSpendingLimit.
  rewrite (bind_run _ _ _ (queryOne_run _ _)). cbn [db].
  destruct (hd_error (select_limit walletId d)) as [r|] eqn:Hr.
  - exists (set_limit_row newLimit c r). eexists.
    rewrite (bind_run _ _ (quiet d c) (a := tt) (w' := quiet d c)) by reflexivity.
    rewrite (bind_run _ _ _ (execute_quiet _ _ _)), queryOne_run. cbn [db].
    fold (is_wallet walletId).
    rewrite select_limit_own_update by reflexivity. rewrite Hr.
    split; [reflexivity|].
    split; [rewrite select_limit_own_update by reflexivity; now rewrite Hr|].
    repeat split.
  - pose proof (getOrCreate_absent cfg walletId d c Hr) as Hget. cbv zeta in Hget.
    set (fresh := fresh_row walletId (DEFAULT_DAILY_LIMIT cfg) (today c) c
                            (spending_limits d)) in *.
    set (d1 := with_spending_limits (fun rows => rows ++ [fresh]) d) in *.
    assert (Hown : hd_error (select_limit walletId d1) = Some fresh).
    { unfold select_limit, d1, with_spending_limits. cbn [spending_limits].
      apply hd_error_filter_absent; [exact Hr|]. cbn. apply Z.eqb_refl. }
    exists (set_limit_row newLimit c fresh). eexists.
    rewrite (bind_run _ _ (quiet d c) (a := tt) (w' := quiet d1 c))
      by (now rewrite (bind_run _ _ _ Hget)).
    rewrite (bind_run _ _ _ (execute_quiet _ _ _)), queryOne_run. cbn [db].
    fold (is_wallet walletId).
    rewrite select_limit_own_update by reflexivity. rewrite Hown.
    split; [reflexivity|].
    split; [rewrite select_limit_own_update by reflexivity; now rewrite Hown|].
    repeat split.
Qed.

(** X10. [setLimit] refuses a negative cap with the error "Spending limit
    cannot be negative" and leaves the world untouched.  Otherwise it
    changes the cap only: the row it returns and stores has the new cap and
    the [used_today] and [reset_date] the wallet's row had (no rollover, so
    on a stale row the status shows the earlier day's usage and date; a
    missing row is created with nothing used), and the limits service
    afterwards reports the new cap with the usage it would have reported
    before. *)
Theorem setLimit_changes_the_cap_only cfg walletId newLimit :
  (forall w,
      (newLimit <? 0)%float = true ->
      setLimit cfg walletId newLimit w
      = (Throw (JsError "Spending limit cannot be negative"), w))
  /\ (forall d c,
      (0 <=? newLimit)%float = true ->
      exists st d',
        setLimit cfg walletId newLimit (quiet d c) = (Ok st, quiet d' c)
        /\ dailyLimit st = newLimit
        /\ remainingToday st = (newLimit - usedToday st)%float
        /\ (forall r, hd_error (select_limit walletId d) = Some r ->
              usedToday st = used_today r /\ resetDate st = reset_date r)
        /\ (hd_error (select_limit walletId d) = None ->
              usedToday st = 0%float /\ resetDate st = today c)
        /\ forall c1 before,
            fst (getLimitStatus cfg walletId (quiet d c1)) = Ok before ->
            fst (getLimitStatus cfg walletId (quiet d' c1))
            = Ok (mkLimitStatus newLimit (usedToday before)
                                (newLimit - usedToday before)%float (today c1))).
Proof.
  split.
  - intros w Hneg. unfold setLimit. now rewrite Hneg.
  - intros d c Hpos. unfold setLimit.
    rewrite (leb_not_ltb _ _ Hpos).
    destruct (updateSpendingLimit_quiet cfg walletId newLimit d c)
      as (row & d' & Hrun & Hown & Hlimit & Hcase).
    eexists; exists d'. rewrite (bind_run _ _ _ Hrun).
    split; [reflexivity|]. cbn [dailyLimit usedToday remainingToday resetDate].
    split; [exact Hlimit|]. split; [now rewrite Hlimit|].
    split; [intros r Hr; now rewrite Hr in Hcase|].
    split; [intros Hr; now rewrite Hr in Hcase|].
    intros c1 before Hbefore. rewrite getLimitStatus_view in *.
    injection Hbefore as <-. cbn [usedToday].
    assert (Hview : view cfg (today c1) walletId d'
                    = (newLimit, snd (view cfg (today c1) walletId d))).
    { unfold view. rewrite Hown, Hlimit.
      destruct (hd_error (select_limit walletId d)) as [r|];
        destruct Hcase as [-> ->]; cbn [snd]; [reflexivity|].
      now destruct (today c =? today c1)%string. }
    now rewrite Hview.
Qed.

Lemma setLimit_changes_the_cap_only_witness :
  setLimit demo_cfg 7 (-5) (idle stale_store this_morning [NoFault])
  = (Throw (JsError "Spending limit cannot be negative"),
     idle stale_store this_morning [NoFault])
  /\ exists st d',
      setLimit demo_cfg 7 500 (quiet stale_store this_morning)
      = (Ok st, quiet d' this_morning)
      /\ dailyLimit st = 500%float
      /\ usedToday st = 80%float
      /\ resetDate st = "2025-03-13"
      /\ fst (getLimitStatus demo_cfg 7 (quiet d' this_noon))
         = Ok (mkLimitStatus 500 0 (500 - 0) "2025-03-14").
Proof.
  split.
  - apply (proj1 (setLimit_changes_the_cap_only demo_cfg 7 (-5))). reflexivity.
  - destruct (proj2 (setLimit_changes_the_cap_only demo_cfg 7 500)
                stale_store this_morning) as (st & d' & Hrun & Hl & _ & Hsome & _ & Hafter).
    { reflexivity. }
    exists st, d'. split; [exact Hrun|]. split; [exact Hl|].
    destruct (Hsome (limit_row "2025-03-13" "2025-03-13 18:30:00") eq_refl)
      as [Hu Hd].
    split; [exact Hu|]. split; [exact Hd|].
    exact (Hafter this_noon _ eq_refl).
Defined.

(** X11. A read of the limits service repeated on the same day returns the
    same status and writes nothing, whatever the wallet's row was before the
    first read (missing, stale or current) and whatever the fault plan of
    the second; the status always carries today's date and
    [remaining = dailyLimit - usedToday]. *)
Theorem getLimitStatus_reads_are_stable cfg walletId d c c1 fs b :
  today c1 = today c ->
  exists st d1,
    getLimitStatus cfg walletId (quiet d c) = (Ok st, quiet d1 c)
    /\ resetDate st = today c
    /\ remainingToday st = (dailyLimit st - usedToday st)%float
    /\ getLimitStatus cfg walletId (mkWorld d1 c1 fs b)
       = (Ok st, mkWorld d1 c1 fs b).
Proof.
  intros Hday.
  destruct (getOrCreate_view cfg walletId d c)
    as (row & d1 & Hrun & Hown & Hdate & _).
  eexists; exists d1. unfold getLimitStatus at 1.
  rewrite (bind_run _ _ _ Hrun).
  split; [reflexivity|]. cbn [resetDate remainingToday dailyLimit usedToday].
  split; [exact Hdate|]. split; [reflexivity|].
  unfold getLimitStatus.
  rewrite (bind_run _ _ _ (getOrCreate_current cfg walletId d1 c1 row fs b Hown
                             (eq_trans Hdate (eq_sym Hday)))).
  reflexivity.
Qed.

Lemma getLimitStatus_reads_are_stable_witness :
  exists st d1,
    getLimitStatus demo_cfg 7 (quiet stale_store this_morning)
    = (Ok st, quiet d1 this_morning)
    /\ resetDate st = today this_morning
    /\ remainingToday st = (dailyLimit st - usedToday st)%float
    /\ getLimitStatus demo_cfg 7 (idle d1 this_evening [RunFault "disk full"])
       = (Ok st, idle d1 this_evening [RunFault "disk full"]).
Proof.
  apply (getLimitStatus_reads_are_stable demo_cfg 7 stale_store this_morning
           this_evening [RunFault "disk full"] None).
  reflexivity.
Defined.

(** ** The ledger: create, confirm, miss *)

(** X12. Creating a transaction and then confirming it by its id with a
    settlement reference yields, and stores as the last row of the ledger, a
    row with status [confirmed], that reference, the confirmation time of
    the second call, and the wallet, destination, amount and fee given at
    creation; the creation time is that of the first call. *)
Theorem create_then_confirm_round_trip
  fromWalletId amt txType options ref d c c2 :
  is_nan amt = false ->
  ref <> "" ->
  exists tx r d',
    (tx <- createTransaction fromWalletId amt txType options ;;
     resume_at c2 ;;
     r <- updateTransactionStatus (tx_id tx) Confirmed
            (mkStatusOptions (Some ref) None) ;;
     ret (tx, r)) (quiet d c)
    = (Ok (tx, Some r), quiet d' c2)
    /\ transactions d' = transactions d ++ [r]
    /\ status tx = Pending
    /\ tx_id r = tx_id tx
    /\ status r = Confirmed
    /\ tx_signature r = Some ref
    /\ confirmed_at r = Some (timestamp c2)
    /\ created_at r = timestamp c
    /\ from_wallet_id r = fromWalletId
    /\ to_wallet_id r = int_or_null (toWalletId options)
    /\ to_external_address r = str_or_null (toExternalAddress options)
    /\ amount r = amt
    /\ fee r = num_or_zero (opt_fee options)
    /\ tx_type r = txType
    /\ error_message r = None.
Proof.
  intros Hnum Href.
  set (tx := new_transaction fromWalletId amt txType options c (transactions d)).
  set (f := set_status Confirmed (mkStatusOptions (Some ref) None) c2).
  assert (Hfresh : forall r, In r (transactions d) -> tx_id r < tx_id tx)
    by (intros r Hr; now apply tx_id_below_next).
  exists tx, (f tx). eexists.
  rewrite (bind_run _ _ _ (createTransaction_quiet _ _ _ _ _ _ Hnum)).
  fold tx. unfold bind at 1, resume_at. cbn [db faults begun].
  rewrite (bind_run _ _ _ (updateTransactionStatus_quiet _ _ _ _ _)).
  unfold select_transaction, insert_transaction, with_transactions.
  cbn [transactions]. fold tx.
  rewrite (select_appended _ _ Hfresh), (update_appended _ _ _ Hfresh).
  split; [reflexivity|]. cbn [transactions].
  split; [reflexivity|].
  repeat (split; [reflexivity|]).
  split; [|repeat split].
  unfold f. cbn. destruct ref; [congruence|reflexivity].
Qed.

Lemma create_then_confirm_round_trip_witness :
  exists tx r d',
    (tx <- createTransaction 1 50 Transfer
             (mkCreateOptions (Some 2) None (Some 0.5%float) None) ;;
     resume_at this_noon ;;
     r <- updateTransactionStatus (tx_id tx) Confirmed
            (mkStatusOptions (Some "sig123") None) ;;
     ret (tx, r)) (quiet ledger_store this_morning)
    = (Ok (tx, Some r), quiet d' this_noon)
    /\ transactions d' = transactions ledger_store ++ [r]
    /\ status tx = Pending
    /\ tx_id r = tx_id tx
    /\ status r = Confirmed
    /\ tx_signature r = Some "sig123"
    /\ confirmed_at r = Some (timestamp this_noon)
    /\ created_at r = timestamp this_morning
    /\ from_wallet_id r = 1
    /\ to_wallet_id r = Some 2
    /\ to_external_address r = None
    /\ amount r = 50%float
    /\ fee r = 0.5%float
    /\ tx_type r = Transfer
    /\ error_message r = None.
Proof.
  apply (create_then_confirm_round_trip 1 50 Transfer
           (mkCreateOptions (Some 2) None (Some 0.5%float) None) "sig123"
           ledger_store this_morning this_noon).
  - reflexivity.
  - discriminate.
Defined.

(** X13. A status transition aimed at an id that no transaction has, and a
    completion aimed at an id that no withdrawal request has, change nothing
    in the store under any fault plan; without an injected fault they return
    [undefined]. *)
Theorem transitions_on_missing_ids_do_nothing :
  (forall id st options d c fs,
      select_transaction id d = [] ->
      db (snd (updateTransactionStatus id st options (idle d c fs))) = d
      /\ updateTransactionStatus id st options (quiet d c)
         = (Ok None, quiet d c))
  /\ (forall requestId d c fs,
      select_withdrawal requestId d = [] ->
      db (snd (completeWithdrawal requestId (idle d c fs))) = d
      /\ completeWithdrawal requestId (quiet d c)
         = (Ok None, quiet d c)).
Proof.
  split.
  - intros id st options d c fs Hnone.
    assert (Hsame : forall c',
               with_transactions
                 (update_where (fun r => tx_id r =? id) (set_status st options c'))
                 d = d).
    { intros c'. unfold with_transactions.
      rewrite unmatched_update by exact Hnone.
      now destruct d. }
    split.
    + unfold updateTransactionStatus, bind, execute, queryOne, query, next_fault.
      destruct fs as [|[|m|m] fs]; cbn; now rewrite ?Hsame.
    + rewrite updateTransactionStatus_quiet. unfold has_id.
      now rewrite Hsame, Hnone.
  - intros requestId d c fs Hnone.
    assert (Hsame : forall c',
               with_withdrawal_requests
                 (update_where (fun r => wr_id r =? requestId) (complete_row c'))
                 d = d).
    { intros c'. unfold with_withdrawal_requests.
      rewrite unmatched_update by exact Hnone.
      now destruct d. }
    split.
    + unfold completeWithdrawal, bind, execute, queryOne, query, next_fault.
      destruct fs as [|[|m|m] fs]; cbn; now rewrite ?Hsame.
    + rewrite completeWithdrawal_quiet. now rewrite Hsame, Hnone.
Qed.

Lemma transitions_on_missing_ids_do_nothing_witness :
  (db (snd (updateTransactionStatus 99 Confirmed (mkStatusOptions (Some "sigZ") None)
              (idle ledger_store this_noon [SaveFault "disk full"])))
   = ledger_store
   /\ updateTransactionStatus 99 Confirmed (mkStatusOptions (Some "sigZ") None)
        (quiet ledger_store this_noon)
      = (Ok None, quiet ledger_store this_noon))
  /\ (db (snd (completeWithdrawal 99
                  (idle ledger_store this_noon [RunFault "disk full"])))
      = ledger_store
      /\ completeWithdrawal 99 (quiet ledger_store this_noon)
         = (Ok None, quiet ledger_store this_noon)).
Proof.
  destruct transitions_on_missing_ids_do_nothing as [Htx Hwr]. split.
  - apply (Htx 99 Confirmed (mkStatusOptions (Some "sigZ") None)
               ledger_store this_noon [SaveFault "disk full"]).
    reflexivity.
  - apply (Hwr 99 ledger_store this_noon [RunFault "disk full"]). reflexivity.
Defined.

(** ** Users *)

(** X14. [createUser] is an upsert keyed on the telegram id.  It returns the
    stored user of that telegram id, with the username given (none, or the
    empty one, is stored as NULL, also over an earlier username), and
    [getUserByTelegramId] then finds that same user.  An existing user keeps
    id and creation time and the table keeps its size; otherwise exactly one
    row is appended, with the next free id and the time of the call as its
    creation time.  Users of other telegram ids are untouched. *)
Theorem createUser_is_an_upsert telegramId username d c :
  exists u d',
    createUser telegramId username (quiet d c) = (Ok (Some u), quiet d' c)
    /\ getUserByTelegramId telegramId (quiet d' c) = (Ok (Some u), quiet d' c)
    /\ telegram_id u = telegramId
    /\ telegram_username u
       = match username with
         | Some name => if (name =? "")%string then None else Some name
         | None => None
         end
    /\ user_updated_at u = timestamp c
    /\ match hd_error (select_user telegramId d) with
       | Some old =>
           u_id u = u_id old
           /\ user_created_at u = user_created_at old
           /\ List.length (users d') = List.length (users d)
       | None =>
           users d' = users d ++ [u]
           /\ u_id u = next_id (map u_id (users d))
           /\ user_created_at u = timestamp c
       end
    /\ forall other, other <> telegramId ->
         select_user other d' = select_user other d.
Proof.
  unfold createUser, getUserByTelegramId.
  rewrite (bind_run _ _ _ (queryOne_run _ _)). cbn [db].
  destruct (hd_error (select_user telegramId d)) as [old|] eqn:Hold.
  - assert (Htid : telegram_id old = telegramId).
    { unfold select_user in Hold.
      destruct (filter _ (users d)) as [|x l] eqn:Hf; [discriminate|].
      injection Hold as ->.
      assert (Hin : In old (filter (fun u => (telegram_id u =? telegramId)%string)
                                   (users d))) by (rewrite Hf; now left).
      apply filter_In in Hin. now apply String.eqb_eq. }
    exists (set_username username c old). eexists.
    rewrite (bind_run _ _ _ (execute_quiet _ _ _)), !queryOne_run. cbn [db].
    assert (Hsel : hd_error
              (select_user telegramId
                 (with_users
                    (update_where (fun u => (telegram_id u =? telegramId)%string)
                                  (set_username username c)) d))
            = Some (set_username username c old)).
    { unfold select_user, with_users. cbn [users].
      rewrite (select_after_update
                 (fun u => (telegram_id u =? telegramId)%string)) by reflexivity.
      unfold select_user in Hold. now rewrite Hold. }
    rewrite Hsel. split; [reflexivity|]. split; [now rewrite Hsel|].
    split; [exact Htid|].
    split; [cbn; now destruct username as [[|a name]|]|].
    split; [reflexivity|].
    split.
    + repeat split. cbn [users with_users]. unfold update_where.
      apply length_map.
    + intros other Hne. unfold select_user, with_users. cbn [users].
      apply select_other_after_update; [reflexivity|].
      intros u Hu. apply String.eqb_eq in Hu. apply String.eqb_neq. congruence.
  - set (u := new_user telegramId username c (users d)).
    exists u. eexists.
    rewrite (bind_run _ _ _ (execute_quiet _ _ _)).
    assert (Hsel : hd_error
              (select_user telegramId
                 (with_users (fun rows => rows ++ [new_user telegramId username c rows]) d))
            = Some u).
    { unfold select_user, with_users. cbn [users].
      apply hd_error_filter_absent; [exact Hold|]. cbn. apply String.eqb_refl. }
    rewrite (bind_run _ _ _ (queryOne_run _ _)), !queryOne_run. cbn [db].
    rewrite Hsel. split; [reflexivity|]. split; [now rewrite Hsel|].
    split; [reflexivity|].
    split; [cbn; now destruct username as [[|a name]|]|].
    split; [reflexivity|]. split; [repeat split|].
    intros other Hne. unfold select_user, with_users. cbn [users].
    rewrite filter_app. cbn.
    replace (telegramId =? other)%string with false
      by (symmetry; apply String.eqb_neq; congruence).
    apply app_nil_r.
Qed.

Lemma createUser_is_an_upsert_witness :
  (exists u d',
      createUser "555000111" (Some "") (quiet users_store this_noon)
      = (Ok (Some u), quiet d' this_noon)
      /\ getUserByTelegramId "555000111" (quiet d' this_noon)
         = (Ok (Some u), quiet d' this_noon)
      /\ telegram_id u = "555000111"
      /\ telegram_username u = None
      /\ user_updated_at u = "2025-03-14 12:00:00"
      /\ (u_id u = 3
          /\ user_created_at u = "2025-03-01 08:00:00"
          /\ List.length (users d') = 1%nat)
      /\ forall other, other <> "555000111" ->
           select_user other d' = select_user other users_store)
  /\ (exists u d',
      createUser "555000222" (Some "bob_sol") (quiet users_store this_noon)
      = (Ok (Some u), quiet d' this_noon)
      /\ getUserByTelegramId "555000222" (quiet d' this_noon)
         = (Ok (Some u), quiet d' this_noon)
      /\ telegram_id u = "555000222"
      /\ telegram_username u = Some "bob_sol"
      /\ user_updated_at u = "2025-03-14 12:00:00"
      /\ (users d' = users users_store ++ [u]
          /\ u_id u = 4
          /\ user_created_at u = "2025-03-14 12:00:00")
      /\ forall other, other <> "555000222" ->
           select_user other d' = select_user other users_store).
Proof.
  split.
  - exact (createUser_is_an_upsert "555000111" (Some "") users_store this_noon).
  - exact (createUser_is_an_upsert "555000222" (Some "bob_sol") users_store
             this_noon).
Defined.

(** ** Withdrawals *)

Lemma newest_request_acc rows acc a :
  fold_left
    (fun acc r =>
       match acc with
       | None => Some r
       | Some a => if wr_id a <? wr_id r then Some r else Some a
       end) rows acc = Some a ->
  acc = Some a \/ In a rows.
Proof.
  revert acc. induction rows as [|r rows IH]; intros acc H; simpl in *; [now left|].
  apply IH in H. destruct H as [H|H]; [|now right; right].
  destruct acc as [b|].
  - destruct (wr_id b <? wr_id r); injection H as <-; [right|]; now left.
  - injection H as <-. right. now left.
Qed.

Lemma newest_request_appended rows x :
  (forall r, In r rows -> wr_id r < wr_id x) ->
  newest_request (rows ++ [x]) = Some x.
Proof.
  intros Hlt. unfold newest_request. rewrite fold_left_app. simpl.
  match goal with |- match ?acc with _ => _ end = _ => destruct acc as [a|] eqn:Ha end;
    [|reflexivity].
  apply newest_request_acc in Ha. destruct Ha as [Ha|Ha]; [discriminate|].
  apply Hlt in Ha. apply Z.ltb_lt in Ha. now rewrite Ha.
Qed.

Lemma request_below_next rows r :
  In r rows -> wr_id r < next_id (map wr_id rows).
Proof. intros H. apply next_id_above. now apply in_map. Qed.

Lemma update_appended_request rows x f :
  (forall r, In r rows -> wr_id r < wr_id x) ->
  update_where (fun r => wr_id r =? wr_id x) f (rows ++ [x]) = rows ++ [f x].
Proof.
  intros Hlt. unfold update_where. rewrite map_app. simpl.
  rewrite Z.eqb_refl. f_equal.
  rewrite <- (map_id rows) at 2. apply map_ext_in. intros r Hr.
  replace (wr_id r =? wr_id x) with false; [reflexivity|].
  symmetry. apply Z.eqb_neq. specialize (Hlt r Hr). lia.
Qed.

Lemma select_appended_request rows x :
  (forall r, In r rows -> wr_id r < wr_id x) ->
  filter (fun r => wr_id r =? wr_id x) (rows ++ [x]) = [x].
Proof.
  intros Hlt. rewrite filter_app. simpl. rewrite Z.eqb_refl.
  replace (filter (fun r => wr_id r =? wr_id x) rows) with (@nil WithdrawalRequest);
    [reflexivity|].
  symmetry. induction rows as [|r rows IH]; simpl; [reflexivity|].
  replace (wr_id r =? wr_id x) with false.
  - apply IH. intros r' Hr'. apply Hlt. now right.
  - symmetry. apply Z.eqb_neq. specialize (Hlt r (or_introl eq_refl)). lia.
Qed.

(** The fee, the payout and the two rows of a withdrawal request that was
    accepted. *)
Lemma initiateWithdrawal_quiet host userId walletId amountUsdc d c :
  (10 <=? amountUsdc)%float = true ->
  let fee_ := (amountUsdc * (WITHDRAWAL_FEE_PERCENT / 100))%float in
  let amountFiat := ((amountUsdc - fee_) * USDC_TO_USD_RATE)%float in
  let pending := new_request userId walletId amountUsdc amountFiat c
                             (withdrawal_requests d) in
  let r := process_row ("tr_mock_" ++ dateNow host) pending in
  exists d',
    initiateWithdrawal host userId walletId amountUsdc (quiet d c)
    = (Ok (mkWithdrawalResult true (Some r)
             (withdrawal_message host amountUsdc fee_ amountFiat)
             (Some (arrival host))),
       quiet d' c)
    /\ withdrawal_requests d' = withdrawal_requests d ++ [r]
    /\ forall x, In x (withdrawal_requests d) -> wr_id x < wr_id r.
Proof.
  intros Hmin fee_ amountFiat pending r.
  assert (Hfresh : forall x, In x (withdrawal_requests d) -> wr_id x < wr_id pending)
    by (intros x Hx; now apply request_below_next).
  eexists. unfold initiateWithdrawal.
  rewrite (leb_not_ltb _ _ Hmin). cbv zeta.
  rewrite (bind_run _ _ _ (execute_quiet _ _ _)).
  unfold bind at 1, query. cbn [db].
  unfold select_pending_request, with_withdrawal_requests at 1.
  cbn [withdrawal_requests]. fold fee_ amountFiat pending.
  rewrite filter_app. cbn [filter new_request wr_user_id wr_wallet_id
                           amount_usdc wr_status pending].
  rewrite !Z.eqb_refl, (eqb_number _ (proj2 (leb_numbers _ _ Hmin))).
  cbn [andb WStatus_eqb].
  rewrite newest_request_appended.
  2:{ intros x Hx. apply filter_In in Hx. apply Hfresh. tauto. }
  rewrite (bind_run _ _ _ (execute_quiet _ _ _)), (bind_run _ _ _ (queryOne_run _ _)).
  unfold select_withdrawal, with_withdrawal_requests. cbn [db withdrawal_requests].
  rewrite (update_appended_request _ _ _ Hfresh).
  change (wr_id pending) with (wr_id r) at 1.
  rewrite (select_appended_request _ r) by exact Hfresh.
  split; [reflexivity|]. split; [reflexivity|]. exact Hfresh.
Qed.

(** X15. [initiateWithdrawal] refuses an amount below 10 with "Minimum
    withdrawal is $10 USDC" and touches nothing.  From 10 on it appends one
    request and answers with it: the request is already [processing] (never
    left [pending]), carries the payout reference "tr_mock_" followed by the
    clock reading, the user, the wallet and the amount given, and as payout
    the amount less the fee of 1.5 percent of it, as doubles;
    [getWithdrawalStatus] on its id finds it. *)
Theorem initiateWithdrawal_opens_a_processing_request
  host userId walletId amountUsdc :
  (forall w,
      (amountUsdc <? 10)%float = true ->
      initiateWithdrawal host userId walletId amountUsdc w
      = (Ok (mkWithdrawalResult false None "Minimum withdrawal is $10 USDC" None),
         w))
  /\ (forall d c,
      (10 <=? amountUsdc)%float = true ->
      exists r fiat msg d',
        initiateWithdrawal host userId walletId amountUsdc (quiet d c)
        = (Ok (mkWithdrawalResult true (Some r) msg (Some (arrival host))),
           quiet d' c)
        /\ withdrawal_requests d' = withdrawal_requests d ++ [r]
        /\ wr_status r = WProcessing
        /\ stripe_transfer_id r = Some ("tr_mock_" ++ dateNow host)%string
        /\ wr_user_id r = userId
        /\ wr_wallet_id r = walletId
        /\ amount_usdc r = amountUsdc
        /\ amount_fiat r = Some fiat
        /\ fiat = ((amountUsdc - amountUsdc * (1.5 / 100)) * 1.0)%float
        /\ fiat_currency r = "USD"
        /\ completed_at r = None
        /\ getWithdrawalStatus (wr_id r) (quiet d' c) = (Ok (Some r), quiet d' c)).
Proof.
  split.
  - intros w Hlow. unfold initiateWithdrawal. now rewrite Hlow.
  - intros d c Hmin.
    destruct (initiateWithdrawal_quiet host userId walletId amountUsdc d c Hmin)
      as (d' & Hrun & Hrows & Hfresh).
    eexists; eexists; eexists; exists d'.
    split; [exact Hrun|]. split; [exact Hrows|].
    repeat (split; [reflexivity|]).
    unfold getWithdrawalStatus. rewrite queryOne_run. cbn [db].
    unfold select_withdrawal. rewrite Hrows.
    now rewrite (select_appended_request _ _ Hfresh).
Qed.

Lemma initiateWithdrawal_opens_a_processing_request_witness :
  initiateWithdrawal demo_host 3 7 9.95
                     (idle ledger_store this_noon [RunFault "disk full"])
  = (Ok (mkWithdrawalResult false None "Minimum withdrawal is $10 USDC" None),
     idle ledger_store this_noon [RunFault "disk full"])
  /\ exists r fiat msg d',
      initiateWithdrawal demo_host 3 7 200 (quiet ledger_store this_noon)
      = (Ok (mkWithdrawalResult true (Some r) msg (Some "Monday, Mar 17")),
         quiet d' this_noon)
      /\ withdrawal_requests d' = withdrawal_requests ledger_store ++ [r]
      /\ wr_status r = WProcessing
      /\ stripe_transfer_id r = Some "tr_mock_1741953600000"
      /\ wr_user_id r = 3
      /\ wr_wallet_id r = 7
      /\ amount_usdc r = 200%float
      /\ amount_fiat r = Some fiat
      /\ fiat = 197%float
      /\ fiat_currency r = "USD"
      /\ completed_at r = None
      /\ getWithdrawalStatus (wr_id r) (quiet d' this_noon)
         = (Ok (Some r), quiet d' this_noon).
Proof.
  split.
  - apply (proj1 (initiateWithdrawal_opens_a_processing_request demo_host 3 7
                    9.95)).
    reflexivity.
  - apply (proj2 (initiateWithdrawal_opens_a_processing_request demo_host 3 7 200)
                 ledger_store this_noon).
    reflexivity.
Defined.

(** X16. A withdrawal that was initiated and is then completed by its id
    ends [completed], stamped with the time of the completion, and keeps its
    payout reference, its amounts, its user and its wallet; the requests
    that were there before are as they were. *)
Theorem initiate_then_complete host userId walletId amountUsdc d c c2 :
  (10 <=? amountUsdc)%float = true ->
  exists res r r' d',
    (res <- initiateWithdrawal host userId walletId amountUsdc ;;
     resume_at c2 ;;
     match request res with
     | Some r => completeWithdrawal (wr_id r)
     | None => ret None
     end) (quiet d c)
    = (Ok (Some r'), quiet d' c2)
    /\ fst (initiateWithdrawal host userId walletId amountUsdc (quiet d c)) = Ok res
    /\ request res = Some r
    /\ withdrawal_requests d' = withdrawal_requests d ++ [r']
    /\ wr_id r' = wr_id r
    /\ wr_status r' = WCompleted
    /\ completed_at r' = Some (timestamp c2)
    /\ stripe_transfer_id r' = stripe_transfer_id r
    /\ amount_usdc r' = amountUsdc
    /\ amount_fiat r' = amount_fiat r
    /\ wr_user_id r' = userId
    /\ wr_wallet_id r' = walletId.
Proof.
  intros Hmin.
  destruct (initiateWithdrawal_quiet host userId walletId amountUsdc d c Hmin)
    as (d1 & Hrun & Hrows & Hfresh).
  cbv zeta in *.
  eexists; eexists; eexists; eexists.
  rewrite (bind_run _ _ _ Hrun). unfold bind at 1, resume_at.
  cbn [db faults begun request].
  rewrite completeWithdrawal_quiet, Hrun.
  unfold select_withdrawal. rewrite Hrows.
  rewrite (select_appended_request _ _ Hfresh). cbn [hd_error option_map fst].
  split; [reflexivity|]. split; [reflexivity|]. split; [reflexivity|].
  split; [|repeat split].
  unfold with_withdrawal_requests. cbn [withdrawal_requests]. rewrite Hrows.
  now rewrite (update_appended_request _ _ _ Hfresh).
Qed.

Lemma initiate_then_complete_witness :
  exists res r r' d',
    (res <- initiateWithdrawal demo_host 3 7 200 ;;
     resume_at this_evening ;;
     match request res with
     | Some r => completeWithdrawal (wr_id r)
     | None => ret None
     end) (quiet ledger_store this_noon)
    = (Ok (Some r'), quiet d' this_evening)
    /\ fst (initiateWithdrawal demo_host 3 7 200 (quiet ledger_store this_noon))
       = Ok res
    /\ request res = Some r
    /\ withdrawal_requests d' = withdrawal_requests ledger_store ++ [r']
    /\ wr_id r' = wr_id r
    /\ wr_status r' = WCompleted
    /\ completed_at r' = Some (timestamp this_evening)
    /\ stripe_transfer_id r' = stripe_transfer_id r
    /\ amount_usdc r' = 200%float
    /\ amount_fiat r' = amount_fiat r
    /\ wr_user_id r' = 3
    /\ wr_wallet_id r' = 7.
Proof.
  apply (initiate_then_complete demo_host 3 7 200 ledger_store this_noon
           this_evening).
  reflexivity.
Defined.

(** X17. The two writes of [initiateWithdrawal] are not a unit of work: when
    the insert goes through and the write that would set [processing] fails,
    the error propagates to the caller and the request stays in the store,
    [pending] and without payout reference. *)
Theorem failed_processing_leaves_request_pending
  host userId walletId amountUsdc d c msg fs :
  (10 <=? amountUsdc)%float = true ->
  exists p d',
    initiateWithdrawal host userId walletId amountUsdc
                       (idle d c (NoFault :: RunFault msg :: fs))
    = (Throw (JsError msg), idle d' c fs)
    /\ withdrawal_requests d' = withdrawal_requests d ++ [p]
    /\ wr_status p = WPending
    /\ stripe_transfer_id p = None
    /\ wr_user_id p = userId
    /\ wr_wallet_id p = walletId
    /\ amount_usdc p = amountUsdc.
Proof.
  intros Hmin.
  set (fee_ := (amountUsdc * (WITHDRAWAL_FEE_PERCENT / 100))%float).
  set (amountFiat := ((amountUsdc - fee_) * USDC_TO_USD_RATE)%float).
  set (p := new_request userId walletId amountUsdc amountFiat c
                        (withdrawal_requests d)).
  assert (Hfresh : forall x, In x (withdrawal_requests d) -> wr_id x < wr_id p)
    by (intros x Hx; now apply request_below_next).
  exists p. eexists. unfold initiateWithdrawal.
  rewrite (leb_not_ltb _ _ Hmin). cbv zeta.
  fold fee_ amountFiat.
  unfold bind at 1, execute at 1, next_fault, reopened.
  cbn [faults db clock begun].
  unfold bind at 1, query. cbn [db].
  unfold select_pending_request, with_withdrawal_requests at 1.
  cbn [withdrawal_requests]. fold p.
  rewrite filter_app. cbn [filter new_request wr_user_id wr_wallet_id
                           amount_usdc wr_status p].
  rewrite !Z.eqb_refl, (eqb_number _ (proj2 (leb_numbers _ _ Hmin))).
  cbn [andb WStatus_eqb].
  rewrite newest_request_appended.
  2:{ intros x Hx. apply filter_In in Hx. apply Hfresh. tauto. }
  unfold bind at 1, execute, next_fault. cbn [faults db clock begun].
  split; [reflexivity|]. repeat split.
Qed.

Lemma failed_processing_leaves_request_pending_witness :
  exists p d',
    initiateWithdrawal demo_host 3 7 200
      (idle ledger_store this_noon [NoFault; RunFault "disk I/O error"])
    = (Throw (JsError "disk I/O error"), quiet d' this_noon)
    /\ withdrawal_requests d' = withdrawal_requests ledger_store ++ [p]
    /\ wr_status p = WPending
    /\ stripe_transfer_id p = None
    /\ wr_user_id p = 3
    /\ wr_wallet_id p = 7
    /\ amount_usdc p = 200%float.
Proof.
  apply (failed_processing_leaves_request_pending demo_host 3 7 200 ledger_store
           this_noon "disk I/O error" []).
  reflexivity.
Defined.

(** ** A store failure after the settlement *)

Lemma execute_passes stmt d c fs :
  execute stmt (idle d c (NoFault :: fs)) = (Ok tt, idle (stmt c d) c fs).
Proof. reflexivity. Qed.

(** A refused write leaves the rows and an open transaction as they are. *)
Lemma execute_fails stmt d c msg fs b :
  execute stmt (mkWorld d c (RunFault msg :: fs) b)
  = (Throw (JsError msg), mkWorld d c fs b).
Proof. reflexivity. Qed.

Lemma createTransaction_passes fromWalletId amt txType options d c fs :
  is_nan amt = false ->
  createTransaction fromWalletId amt txType options (idle d c (NoFault :: fs))
  = (Ok (new_transaction fromWalletId amt txType options c (transactions d)),
     idle (insert_transaction fromWalletId amt txType options c d) c fs).
Proof.
  intros Hnum.
  pose proof (createTransaction_quiet fromWalletId amt txType options d c Hnum) as Hq.
  unfold createTransaction in *.
  rewrite (bind_run _ _ _ (execute_passes _ _ _ _)).
  rewrite (bind_run _ _ _ (execute_quiet _ _ _)) in Hq.
  unfold bind, query in *. cbn [db] in *.
  destruct (newest _) as [tx|]; [|discriminate Hq].
  injection Hq as ->. reflexivity.
Qed.

(** X18. An internal transfer whose settlement went through is still
    answered as failed when the store refuses the spend-recording write that
    follows, the first write of the unit of work: the transaction is still
    open, ROLLBACK succeeds and the store's error propagates; the pending
    row is marked [failed] with the store's message (NULL when the message
    is empty) and without settlement reference, no second row is written,
    and the spending limits are as before, although the network has
    accepted the transfer. *)
Theorem store_failure_after_settlement
  cfg ext fromWallet toWallet amt d c r0 pk kp pk2 sig msg :
  hd_error (select_limit (w_id fromWallet) d) = Some r0 ->
  reset_date r0 = today c ->
  (amt <=? daily_limit r0 - used_today r0)%float = true ->
  newPublicKey ext (public_key fromWallet) = Ok pk ->
  hasEnoughUsdc ext pk amt = Ok true ->
  keypairFromBase58 ext (encrypted_secret_key fromWallet) = Ok kp ->
  newPublicKey ext (public_key toWallet) = Ok pk2 ->
  transferUsdc ext kp pk2 (amt - platform_fee cfg amt)%float = Ok sig ->
  today (settle_resume ext) = today c ->
  exists p d',
    transfer cfg ext fromWallet toWallet amt
             (idle d c [NoFault; RunFault msg])
    = (Ok (mkTransferResult false None None None (Some msg)),
       quiet d' (settle_resume ext))
    /\ spending_limits d' = spending_limits d
    /\ transactions d' = transactions d ++ [p]
    /\ status p = Failed
    /\ tx_signature p = None
    /\ error_message p = (if (msg =? "")%string then None else Some msg)
    /\ amount p = amt.
Proof.
  intros Hr0 Hdate Hallow Hpk Hbal Hkp Hpk2 Hsig Hday.
  pose proof (proj1 (leb_numbers _ _ Hallow)) as Hnum.
  set (p := new_transaction (w_id fromWallet) amt Transfer
              (internal_options toWallet (platform_fee cfg amt))
              (balance_resume ext) (transactions d)).
  set (d2 := insert_transaction (w_id fromWallet) amt Transfer
               (internal_options toWallet (platform_fee cfg amt))
               (balance_resume ext) d).
  set (f := set_status Failed (mkStatusOptions None (Some (message_of (JsError msg))))
                       (settle_resume ext)).
  assert (Hfresh : forall r, In r (transactions d) -> tx_id r < tx_id p)
    by (intros r Hr; now apply tx_id_below_next).
  assert (Hr2 : hd_error (select_limit (w_id fromWallet) d2) = Some r0) by exact Hr0.
  assert (Hexec : executeTransfer cfg (w_id fromWallet) (w_id toWallet) amt sig
                    (platform_fee cfg amt)
                    (idle d2 (settle_resume ext) [RunFault msg])
                  = (Throw (JsError msg), quiet d2 (settle_resume ext))).
  { assert (Hrec : recordSpending cfg (w_id fromWallet)
                     (amt + platform_fee cfg amt)%float
                     (mkWorld d2 (settle_resume ext) [RunFault msg] (Some d2))
                   = (Throw (JsError msg),
                      mkWorld d2 (settle_resume ext) [] (Some d2))).
    { unfold recordSpending.
      rewrite (bind_run _ _ _
                 (getOrCreate_current cfg _ _ _ _ [RunFault msg] (Some d2) Hr2
                    (eq_trans Hdate (eq_sym Hday)))).
      apply bind_throw. apply execute_fails. }
    unfold executeTransfer, runTransaction.
    rewrite (bind_run _ _ (idle d2 (settle_resume ext) [RunFault msg])
               (a := tt)
               (w' := mkWorld d2 (settle_resume ext) [RunFault msg] (Some d2)))
      by reflexivity.
    erewrite try_catch_throw.
    2:{ apply bind_throw. apply bind_throw. exact Hrec. }
    reflexivity. }
  assert (Hchk : checkSpendingAllowed cfg (w_id fromWallet) amt
                   (idle d c [NoFault; RunFault msg])
                 = (Ok (mkAllowance (amt <=? daily_limit r0 - used_today r0)%float
                                    (daily_limit r0 - used_today r0)%float),
                    idle d c [NoFault; RunFault msg])).
  { unfold checkSpendingAllowed.
    now rewrite (bind_run _ _ _ (getOrCreate_current cfg _ _ _ _ _ _ Hr0 Hdate)). }
  exists (f p). eexists. split.
  { unfold transfer. rewrite (bind_run _ _ _ Hchk).
    cbn [allowed]. rewrite Hallow. cbn [negb].
    rewrite (bind_run _ _ _ (call_ok _ _ _ Hpk)).
    rewrite (bind_run _ _ _ (await_ok _ _ _ _ Hbal)). cbn [negb db faults begun].
    rewrite (bind_run _ _ _ (createTransaction_passes _ _ _ _ _ _ _ Hnum)).
    change (amt * (PLATFORM_FEE_PERCENT cfg / 100))%float with (platform_fee cfg amt).
    fold (internal_options toWallet (platform_fee cfg amt)). fold p. fold d2.
    erewrite try_catch_throw.
    2:{ rewrite (bind_run _ _ _ (call_ok _ _ _ Hkp)),
                (bind_run _ _ _ (call_ok _ _ _ Hpk2)),
                (bind_run _ _ _ (await_ok _ _ _ _ Hsig)).
        cbn [db faults begun]. apply bind_throw. exact Hexec. }
    rewrite (bind_run _ _ _ (updateTransactionStatus_quiet _ _ _ _ _)).
    reflexivity. }
  cbn [spending_limits transactions with_transactions].
  split; [reflexivity|].
  split; [unfold d2, insert_transaction, with_transactions; cbn [transactions];
          fold p; now rewrite (update_appended _ _ _ Hfresh)|].
  split; [reflexivity|]. split; [reflexivity|].
  split; [cbn; now destruct msg|reflexivity].
Qed.

Lemma store_failure_after_settlement_witness :
  exists p d',
    transfer demo_cfg (demo_ext (Ok sig1)) alice bob 10
             (idle current_store this_morning [NoFault; RunFault "disk full"])
    = (Ok (mkTransferResult false None None None (Some "disk full")),
       quiet d' this_evening)
    /\ spending_limits d' = spending_limits current_store
    /\ transactions d' = transactions current_store ++ [p]
    /\ status p = Failed
    /\ tx_signature p = None
    /\ error_message p = Some "disk full"
    /\ amount p = 10%float.
Proof.
  apply (store_failure_after_settlement demo_cfg (demo_ext (Ok sig1)) alice bob
           10 current_store this_morning
           (limit_row "2025-03-14" "2025-03-14 08:00:00")
           (public_key alice) (encrypted_secret_key alice) (public_key bob)
           sig1 "disk full");
    reflexivity.
Defined.
